(** * GridDyn: the generic simulation-time representation

    A shallow embedding of [timeRepresentation.h] (unit tables, the three
    encoding strategies [integer_time], [count_time], [double_time], and the
    [timeRepresentation] wrapper) and of [collector::trigger], together with
    the properties of the time arithmetic that the rest of the simulator
    relies on; then the collector's column management and the base class of
    the Jacobian entry interface, [matrixData.h], with their properties.

    Conventions of the embedding.
    - A C++ [double] is an IEEE 754 binary64 value, represented by the
      Standard Library's [spec_float] with [prec = 53] and [emax = 1024];
      every operation rounds to nearest-even as the hardware does.
    - A [std::int64_t] is a [Z] inside [[-2^63, 2^63)].  Signed overflow, a
      zero divisor, and a floating value that does not fit the target of a
      [static_cast] are undefined behaviour in C++: the operation returns
      [None], and the error is threaded through by the [option] monad.
    - The debug-only mirror field [dtime_] does not take part in any
      computation and is left out. *)

From Stdlib Require Import ZArith Lia Bool List SpecFloat.
From Stdlib Require String.
Import ListNotations.
Local Open Scope Z_scope.

(** ** Undefined behaviour as an error monad *)

Definition bind {A B : Type} (c : option A) (k : A -> option B) : option B :=
  match c with
  | Some a => k a
  | None => None
  end.

Notation "x <- c ;; k" := (bind c (fun x => k))
  (at level 61, c at next level, right associativity).

(** ** 64-bit signed integers *)

Module Int64.

Definition min_int : Z := - 2 ^ 63.
Definition max_int : Z := 2 ^ 63 - 1.

Definition in_rangeb (z : Z) : bool := (min_int <=? z) && (z <=? max_int).
Definition in_range (z : Z) : Prop := min_int <= z <= max_int.

(** the result of an arithmetic operation, when it is representable *)
Definition checked (z : Z) : option Z := if in_rangeb z then Some z else None.

Definition add (a b : Z) : option Z := checked (a + b).
Definition sub (a b : Z) : option Z := checked (a - b).
Definition mul (a b : Z) : option Z := checked (a * b).

(** [a / b]: truncated quotient; undefined for [b = 0] and when the
    quotient is not representable ([min_int / -1]) *)
Definition div (a b : Z) : option Z :=
  if b =? 0 then None else checked (Z.quot a b).

(** [a % b]: remainder of the truncated division; undefined exactly where
    [a / b] is *)
Definition rem (a b : Z) : option Z :=
  if b =? 0 then None
  else if in_rangeb (Z.quot a b) then Some (Z.rem a b) else None.

(** [a << n], the value [a * 2^n] when representable *)
Definition shl (a n : Z) : option Z := checked (a * 2 ^ n).
(** [a >> n], arithmetic shift *)
Definition shr (a n : Z) : Z := Z.shiftr a n.

End Int64.

(** ** IEEE 754 binary64 *)

Module Double.

Definition prec : Z := 53.
Definition emax : Z := 1024.

Definition double : Type := spec_float.

Definition mul : double -> double -> double := SFmul prec emax.
Definition div : double -> double -> double := SFdiv prec emax.
Definition add : double -> double -> double := SFadd prec emax.
Definition sub : double -> double -> double := SFsub prec emax.
Definition opp : double -> double := SFopp.

Definition eqb : double -> double -> bool := SFeqb.
Definition ltb : double -> double -> bool := SFltb.
Definition leb : double -> double -> bool := SFleb.
Definition neb (x y : double) : bool := negb (eqb x y).
Definition gtb (x y : double) : bool := ltb y x.
Definition geb (x y : double) : bool := leb y x.

(** [static_cast<double>(z)] for an integer [z] *)
Definition of_Z (z : Z) : double := binary_normalize prec emax z 0 false.

(** the decimal literal [m]e[k], correctly rounded *)
Definition lit (m k : Z) : double :=
  match k with
  | Zneg p =>
      match m with
      | Z0 => S754_zero false
      | _ =>
          let '(q, e, l) :=
            SFdiv_core_binary prec emax (Z.abs m) 0 (10 ^ Zpos p) 0 in
          binary_round_aux prec emax (m <? 0) q e l
      end
  | _ => of_Z (m * 10 ^ k)
  end.

(** the integer obtained by discarding the fractional part *)
Definition trunc (x : double) : option Z :=
  match x with
  | S754_zero _ => Some 0
  | S754_finite s m e =>
      Some (cond_Zopp s
              (match e with
               | Zneg p => Zpos m / 2 ^ Zpos p
               | _ => Zpos m * 2 ^ e
               end))
  | S754_infinity _ | S754_nan => None
  end.

(** [static_cast<std::int64_t>(x)]: truncation toward zero; undefined when
    the truncated value is not representable *)
Definition to_int64 (x : double) : option Z :=
  z <- trunc x ;; Int64.checked z.

(** [std::fmod (x, y)]: the exact remainder of [x / y] with the quotient
    truncated, carrying the sign of [x] *)
Definition fmod (x y : double) : double :=
  match x, y with
  | S754_nan, _ | _, S754_nan => S754_nan
  | S754_infinity _, _ => S754_nan
  | _, S754_zero _ => S754_nan
  | S754_zero _, _ => x
  | S754_finite _ _ _, S754_infinity _ => x
  | S754_finite sx mx ex, S754_finite _ my ey =>
      let e := Z.min ex ey in
      let X := Zpos mx * 2 ^ (ex - e) in
      let Y := Zpos my * 2 ^ (ey - e) in
      binary_normalize prec emax (cond_Zopp sx (Z.rem X Y)) e sx
  end.

(** [std::round (x)] as a mathematical integer: nearest integer, halves
    away from zero *)
Definition round_half_away (x : double) : option Z :=
  match x with
  | S754_zero _ => Some 0
  | S754_finite s m e =>
      Some (cond_Zopp s
              (match e with
               | Zneg p => (2 * Zpos m + 2 ^ Zpos p) / (2 * 2 ^ Zpos p)
               | _ => Zpos m * 2 ^ e
               end))
  | S754_infinity _ | S754_nan => None
  end.

End Double.

Definition double : Type := Double.double.

(** ** Named time units and the unit-conversion tables *)

(** [enum class timeUnits : int]; the enumerators live in their own name
    space, as in the source. *)
Module timeUnits.
Inductive t : Set := ps | ns | us | ms | s | sec | minutes | hr | day.

(** [static_cast<int> (units)] *)
Definition to_int (u : t) : nat :=
  match u with
  | ps => 0 | ns => 1 | us => 2 | ms => 3 | s => 4
  | sec => 5 | minutes => 6 | hr => 7 | day => 8
  end%nat.
End timeUnits.

(** [constexpr double timeCountforward[9]] *)
Definition timeCountforward : list double :=
  [ Double.lit 1 12; Double.lit 1 9; Double.lit 1 6; Double.lit 1 3;
    Double.lit 1 0; Double.lit 1 0;
    Double.div (Double.lit 10 0) (Double.lit 60 0);
    Double.div (Double.lit 1 0) (Double.lit 3600 0);
    Double.div (Double.lit 1 0) (Double.lit 86400 0) ].

(** [constexpr double timeCountReverse[9]] *)
Definition timeCountReverse : list double :=
  [ Double.lit 1 (-12); Double.lit 1 (-9); Double.lit 1 (-6); Double.lit 1 (-3);
    Double.lit 1 0; Double.lit 1 0;
    Double.lit 60 0; Double.lit 3600 0; Double.lit 86400 0 ].

(** [timeCountforward[static_cast<int> (units)]] *)
Definition forward_factor (u : timeUnits.t) : double :=
  nth (timeUnits.to_int u) timeCountforward S754_nan.

(** [timeCountReverse[static_cast<int> (units)]] *)
Definition reverse_factor (u : timeUnits.t) : double :=
  nth (timeUnits.to_int u) timeCountReverse S754_nan.

(** [inline constexpr double pow2 (unsigned int exponent)] *)
Fixpoint pow2 (exponent : nat) : double :=
  match exponent with
  | O => Double.lit 1 0
  | S e => Double.mul (Double.lit 2 0) (pow2 e)
  end.

(** [constexpr std::int64_t fac10[16]] *)
Definition fac10 : list Z :=
  [ 1; 10; 100; 1000; 10000; 100000; 1000000; 10000000; 100000000;
    1000000000; 10000000000; 100000000000; 1000000000000;
    10000000000000; 100000000000000; 1000000000000000 ].

(** [constexpr double fac10f[16]] *)
Definition fac10f : list double :=
  [ Double.lit 1 0; Double.lit 10 0; Double.lit 100 0; Double.lit 1000 0;
    Double.lit 10000 0; Double.lit 100000 0; Double.lit 1000000 0;
    Double.lit 10000000 0; Double.lit 100000000 0; Double.lit 1000000000 0;
    Double.lit 10000000000 0; Double.lit 100000000000 0;
    Double.lit 1000000000000 0; Double.lit 10000000000000 0;
    Double.lit 100000000000000 0; Double.lit 1000000000000000 0 ].

(** ** The raw representation types

    The wrapper applies [+ - * / % == != < > <= >=] to [baseType]; which
    machine operation that is depends on the type the strategy picked. *)

Class RawType (B : Type) : Type := {
  (** [std::is_integral<baseType>::value] *)
  is_integral : bool;
  (** the value of zero-filled storage *)
  zero_bits : B;
  raw_add : B -> B -> option B;
  raw_sub : B -> B -> option B;
  (** [raw * int] and [raw / int] *)
  raw_mul_int : B -> Z -> option B;
  raw_div_int : B -> Z -> option B;
  (** whether [raw % raw] is an expression of the type at all *)
  has_remainder : bool;
  (** [raw % raw] *)
  raw_rem : B -> B -> option B;
  raw_eqb : B -> B -> bool;
  raw_neb : B -> B -> bool;
  raw_gtb : B -> B -> bool;
  raw_ltb : B -> B -> bool;
  raw_geb : B -> B -> bool;
  raw_leb : B -> B -> bool
}.

(** [std::int64_t] *)
#[export] Instance int64_raw : RawType Z := {|
  is_integral := true;
  zero_bits := 0;
  raw_add := Int64.add;
  raw_sub := Int64.sub;
  raw_mul_int := Int64.mul;
  raw_div_int := Int64.div;
  has_remainder := true;
  raw_rem := Int64.rem;
  raw_eqb := Z.eqb;
  raw_neb := fun a b => negb (Z.eqb a b);
  raw_gtb := Z.gtb;
  raw_ltb := Z.ltb;
  raw_geb := Z.geb;
  raw_leb := Z.leb
|}.

(** [double]: every arithmetic operation is defined (IEEE 754); the [int]
    operand is converted first.  [%] does not exist on [double]. *)
#[export] Instance double_raw : RawType double := {|
  is_integral := false;
  zero_bits := S754_zero false;
  raw_add := fun a b => Some (Double.add a b);
  raw_sub := fun a b => Some (Double.sub a b);
  raw_mul_int := fun a d => Some (Double.mul a (Double.of_Z d));
  raw_div_int := fun a d => Some (Double.div a (Double.of_Z d));
  has_remainder := false;
  raw_rem := fun _ _ => None;
  raw_eqb := Double.eqb;
  raw_neb := Double.neb;
  raw_gtb := Double.gtb;
  raw_ltb := Double.ltb;
  raw_geb := Double.geb;
  raw_leb := Double.leb
|}.

(** ** Encoding strategies

    The contract that [timeRepresentation<Tconv>] expects of its template
    argument. *)

Class Tconv (B : Type) {R : RawType B} : Type := {
  convert : double -> option B;
  toDouble : B -> double;
  maxVal : B;
  minVal : B;
  zeroVal : B;
  epsilon : B;
  toCount : B -> timeUnits.t -> option Z;
  fromCount : Z -> timeUnits.t -> option B;
  seconds : B -> option Z
}.

(** *** Binary fixed point: a count of [1/2^N] seconds

    [template <unsigned int N, typename base = std::int64_t> class integer_time] *)
Module integer_time.
Section N.
Variable N : nat.

(** [scalar = (1 << N)] *)
Definition scalar : Z := 2 ^ Z.of_nat N.
(** [fracMask = ((1 << N) - 1)] *)
Definition fracMask : Z := scalar - 1.
(** [multiplier = pow2 (N)] *)
Definition multiplier : double := pow2 N.
(** [divisor = 1.0 / pow2 (N)] *)
Definition divisor : double := Double.div (Double.lit 1 0) (pow2 N).

Definition maxVal : Z := Int64.max_int.
Definition minVal : Z := Int64.min_int.
Definition zeroVal : Z := 0.
Definition epsilon : Z := 1.

(** the value [nseconds] that [convert] assembles before it selects *)
Definition nseconds (t : double) : option Z :=
  let div := Double.mul t multiplier in
  divBase <- Double.to_int64 div ;;
  let frac := Double.sub div (Double.of_Z divBase) in
  hi <- Int64.shl divBase (Z.of_nat N) ;;
  lo <- Double.to_int64 (Double.mul frac multiplier) ;;
  Int64.add hi lo.

(** [static constexpr baseType convert (double t)]:
    [return (t < -1e12) ? nseconds : minVal ();] *)
Definition convert (t : double) : option Z :=
  ns <- nseconds t ;;
  Some (if Double.ltb t (Double.opp (Double.lit 1 12)) then ns else minVal).

(** [static double toDouble (baseType val)] *)
Definition toDouble (val : Z) : double :=
  Double.add (Double.of_Z (Int64.shr val (Z.of_nat N)))
             (Double.mul (Double.of_Z (Z.land fracMask val)) divisor).

(** [static std::int64_t toCount (baseType val, timeUnits units)] *)
Definition toCount (val : Z) (units : timeUnits.t) : option Z :=
  Double.to_int64 (Double.mul (toDouble val) (forward_factor units)).

(** [static baseType fromCount (std::uint64_t count, timeUnits units)]; the
    count is handed to [toDouble] as a raw value *)
Definition fromCount (count : Z) (units : timeUnits.t) : option Z :=
  Double.to_int64 (Double.div (toDouble count) (forward_factor units)).

(** [static std::int64_t seconds (baseType val)] *)
Definition seconds (val : Z) : option Z := Some (Int64.shr val (Z.of_nat N)).

Definition strategy : Tconv Z :=
  Build_Tconv Z int64_raw convert toDouble maxVal minVal zeroVal epsilon
              toCount fromCount seconds.
End N.
End integer_time.

(** *** Decimal fixed point: a count of [1/10^N] seconds

    [template <int N, typename base = std::int64_t> class count_time],
    with [0 <= N < 16] by its static assertions *)
Module count_time.
Section N.
Variable N : nat.

(** [iFactor = fac10[N]] *)
Definition iFactor : Z := nth N fac10 0.
(** [dFactor = fac10f[N]] *)
Definition dFactor : double := nth N fac10f S754_nan.
(** [ddivFactor = 1.0 / fac10f[N]] *)
Definition ddivFactor : double := Double.div (Double.lit 1 0) (nth N fac10f S754_nan).

Definition maxVal : Z := Int64.max_int.
Definition minVal : Z := Int64.min_int.
Definition zeroVal : Z := 0.
Definition epsilon : Z := 1.

(** [return (t > -1e12) ? (static_cast<baseType> (t * dFactor)) : minVal ();] *)
Definition convert (t : double) : option Z :=
  if Double.gtb t (Double.opp (Double.lit 1 12))
  then Double.to_int64 (Double.mul t dFactor)
  else Some minVal.

(** [static double toDouble (baseType val)]; [iFactor] is positive, so the
    quotient and the remainder are always defined *)
Definition toDouble (val : Z) : double :=
  Double.add (Double.of_Z (Z.quot val iFactor))
             (Double.mul (Double.of_Z (Z.rem val iFactor)) ddivFactor).

(** [static std::int64_t seconds (baseType val)] *)
Definition seconds (val : Z) : option Z := Int64.div val iFactor.

(** the two arms [(N >= k) ? val / fac10[N - k] : val * fac10[k - N]] *)
Definition scale_down_up (k : nat) (val : Z) : option Z :=
  if (k <=? N)%nat then Int64.div val (nth (N - k) fac10 0)
  else Int64.mul val (nth (k - N) fac10 0).

(** [static std::int64_t toCount (baseType val, timeUnits units)] *)
Definition toCount (val : Z) (units : timeUnits.t) : option Z :=
  match units with
  | timeUnits.ps => scale_down_up 12 val
  | timeUnits.ns => scale_down_up 9 val
  | timeUnits.us => scale_down_up 6 val
  | timeUnits.ms => scale_down_up 3 val
  | timeUnits.s | timeUnits.sec => seconds val
  | timeUnits.minutes => d <- Int64.mul iFactor 60 ;; Int64.div val d
  | timeUnits.hr => d <- Int64.mul iFactor 3600 ;; Int64.div val d
  | timeUnits.day => d <- Int64.mul iFactor 86400 ;; Int64.div val d
  end.

(** the two arms [(N >= k) ? val * fac10[N - k] : val / fac10[k - N]] *)
Definition scale_up_down (k : nat) (val : Z) : option Z :=
  if (k <=? N)%nat then Int64.mul val (nth (N - k) fac10 0)
  else Int64.div val (nth (k - N) fac10 0).

(** [static baseType fromCount (std::int64_t val, timeUnits units)] *)
Definition fromCount (val : Z) (units : timeUnits.t) : option Z :=
  match units with
  | timeUnits.ps => scale_up_down 12 val
  | timeUnits.ns => scale_up_down 9 val
  | timeUnits.us => scale_up_down 6 val
  | timeUnits.ms => scale_up_down 3 val
  | timeUnits.s | timeUnits.sec => Int64.mul val iFactor
  | timeUnits.minutes => v <- Int64.mul val 60 ;; Int64.mul v iFactor
  | timeUnits.hr => v <- Int64.mul val 3600 ;; Int64.mul v iFactor
  | timeUnits.day => v <- Int64.mul val 86400 ;; Int64.mul v iFactor
  end.

Definition strategy : Tconv Z :=
  Build_Tconv Z int64_raw convert toDouble maxVal minVal zeroVal epsilon
              toCount fromCount seconds.
End N.
End count_time.

(** *** Floating passthrough

    [template <typename base = double> class double_time] *)
Module double_time.

Definition convert (t : double) : option double := Some t.
Definition toDouble (val : double) : double := val.
Definition maxVal : double := Double.lit 1 49.
Definition minVal : double := Double.opp (Double.lit 1456 44).
Definition zeroVal : double := Double.lit 0 0.
Definition epsilon : double := Double.lit 1 (-86).

Definition toCount (val : double) (units : timeUnits.t) : option Z :=
  Double.to_int64 (Double.mul val (forward_factor units)).

Definition fromCount (val : Z) (units : timeUnits.t) : option double :=
  Some (Double.mul (Double.of_Z val) (reverse_factor units)).

Definition seconds (val : double) : option Z := Double.to_int64 val.

Definition strategy : Tconv double :=
  Build_Tconv double double_raw convert toDouble maxVal minVal zeroVal epsilon
              toCount fromCount seconds.
End double_time.

(** ** The time value wrapper

    [template <class Tconv> class timeRepresentation]: one raw value
    [timecode_] under one strategy. *)

Record timeRepresentation (B : Type) : Type := mkTime { timecode_ : B }.
Arguments mkTime {B} _.
Arguments timecode_ {B} _.

Section Wrapper.
Context {B : Type} {R : RawType B} (T : Tconv B).

Local Notation "'time'" := (timeRepresentation B).

(** [timeRepresentation () noexcept = default;] The member [timecode_] has
    no initialiser, so the defaulted constructor writes nothing: the object
    shows whatever its storage held before. *)
Definition default_ctor (storage : B) : time := mkTime storage.

(** value-initialisation, [timeRepresentation ()] or [timeRepresentation {}]:
    the storage is zero-filled before the defaulted constructor runs *)
Definition value_init : time := default_ctor zero_bits.

(** the private tagged constructors behind the four sentinel factories *)
Definition time_maxVal : time := mkTime maxVal.
Definition time_minVal : time := mkTime minVal.
Definition time_zeroVal : time := mkTime zeroVal.
Definition time_epsilon : time := mkTime epsilon.

(** [constexpr timeRepresentation (double t)] *)
Definition time_of_double (t : double) : option time :=
  r <- convert t ;; Some (mkTime r).

(** [constexpr timeRepresentation (std::int64_t count, timeUnits units)] *)
Definition time_of_count (count : Z) (units : timeUnits.t) : option time :=
  r <- fromCount count units ;; Some (mkTime r).

Definition time_seconds (x : time) : option Z := seconds (timecode_ x).
Definition time_toCount (x : time) (units : timeUnits.t) : option Z :=
  toCount (timecode_ x) units.

(** [operator= (double t)] *)
Definition time_assign_double (_ : time) (t : double) : option time :=
  time_of_double t.

(** [operator double ()] *)
Definition time_to_double (x : time) : double := toDouble (timecode_ x).

Definition getBaseTimeCode (x : time) : B := timecode_ x.
Definition setBaseTimeCode (_ : time) (timecodeval : B) : time := mkTime timecodeval.

(** *** Arithmetic members *)

(** [operator+=], [operator+] *)
Definition time_add (x rhs : time) : option time :=
  r <- raw_add (timecode_ x) (timecode_ rhs) ;; Some (mkTime r).
Definition time_add_assign := time_add.

(** [operator-=], [operator-] *)
Definition time_sub (x rhs : time) : option time :=
  r <- raw_sub (timecode_ x) (timecode_ rhs) ;; Some (mkTime r).
Definition time_sub_assign := time_sub.

(** [operator* (int multiplier)]: [trep.timecode_ = timecode_ * multiplier] *)
Definition time_mul_int (x : time) (multiplier : Z) : option time :=
  r <- raw_mul_int (timecode_ x) multiplier ;; Some (mkTime r).
(** [operator*= (int multiplier)]: [timecode_ *= multiplier] *)
Definition time_mul_assign_int (x : time) (multiplier : Z) : option time :=
  r <- raw_mul_int (timecode_ x) multiplier ;; Some (mkTime r).

(** [operator* (double multiplier)]:
    [return timeRepresentation (Tconv::toDouble (timecode_) * multiplier);] *)
Definition time_mul_double (x : time) (multiplier : double) : option time :=
  time_of_double (Double.mul (toDouble (timecode_ x)) multiplier).
(** [operator*= (double multiplier)] *)
Definition time_mul_assign_double (x : time) (multiplier : double) : option time :=
  nt <- time_of_double (Double.mul (toDouble (timecode_ x)) multiplier) ;;
  Some (mkTime (timecode_ nt)).

(** [operator/ (int divisor)]: [trep.timecode_ = timecode_ / divisor] *)
Definition time_div_int (x : time) (divisor : Z) : option time :=
  r <- raw_div_int (timecode_ x) divisor ;; Some (mkTime r).
(** [operator/= (int divisor)]: [timecode_ /= divisor] *)
Definition time_div_assign_int (x : time) (divisor : Z) : option time :=
  r <- raw_div_int (timecode_ x) divisor ;; Some (mkTime r).

(** [operator/ (double divisor)] *)
Definition time_div_double (x : time) (divisor : double) : option time :=
  time_of_double (Double.div (toDouble (timecode_ x)) divisor).
(** [operator/= (double divisor)] *)
Definition time_div_assign_double (x : time) (divisor : double) : option time :=
  nt <- time_of_double (Double.div (toDouble (timecode_ x)) divisor) ;;
  Some (mkTime (timecode_ nt)).

(** [operator% (const timeRepresentation &other)].  The test on
    [std::is_integral] is an ordinary [if]: both arms are compiled for
    every raw type, so the member exists only where [raw % raw] does.  For
    a raw type without it, [double] among them, the member does not compile,
    there is no such call, and the model has no value for it. *)
Definition time_mod (x other : time) : option time :=
  if has_remainder
  then if is_integral
       then r <- raw_rem (timecode_ x) (timecode_ other) ;; Some (mkTime r)
       else r <- convert (Double.fmod (toDouble (timecode_ x))
                                      (toDouble (timecode_ other))) ;;
            Some (mkTime r)
  else None.

(** [operator%= (const timeRepresentation &other)]; as for [operator%] *)
Definition time_mod_assign (x other : time) : option time :=
  if has_remainder
  then if is_integral
       then r <- raw_rem (timecode_ x) (timecode_ other) ;; Some (mkTime r)
       else r <- convert (Double.fmod (toDouble (timecode_ x))
                                      (toDouble (timecode_ other))) ;;
            Some (mkTime r)
  else None.

(** *** Comparison members *)

Definition time_eq (x rhs : time) : bool := raw_eqb (timecode_ x) (timecode_ rhs).
Definition time_ne (x rhs : time) : bool := raw_neb (timecode_ x) (timecode_ rhs).
Definition time_gt (x rhs : time) : bool := raw_gtb (timecode_ x) (timecode_ rhs).
Definition time_lt (x rhs : time) : bool := raw_ltb (timecode_ x) (timecode_ rhs).
Definition time_ge (x rhs : time) : bool := raw_geb (timecode_ x) (timecode_ rhs).
Definition time_le (x rhs : time) : bool := raw_leb (timecode_ x) (timecode_ rhs).

(** *** The free operators *)

(** [double operator/ (double x, timeRepresentation<Tconv> t)] *)
Definition double_div_time (x : double) (t : time) : double :=
  Double.div x (time_to_double t).
(** [double operator* (double x, timeRepresentation<Tconv> t)] *)
Definition double_mul_time (x : double) (t : time) : double :=
  Double.mul x (time_to_double t).
(** [double operator/ (timeRepresentation<Tconv> t1, timeRepresentation<Tconv> t2)] *)
Definition time_div_time (t1 t2 : time) : double :=
  Double.div (time_to_double t1) (time_to_double t2).

Definition time_sub_double (t : time) (x : double) : option time :=
  tx <- time_of_double x ;; time_sub t tx.
Definition double_sub_time (x : double) (t : time) : option time :=
  tx <- time_of_double x ;; time_sub tx t.
Definition time_add_double (t : time) (x : double) : option time :=
  tx <- time_of_double x ;; time_add t tx.
Definition double_add_time (x : double) (t : time) : option time :=
  tx <- time_of_double x ;; time_add tx t.

(** time on the left, plain number on the right *)
Definition time_eq_double (t1 : time) (rhs : double) : option bool :=
  tr <- time_of_double rhs ;; Some (time_eq t1 tr).
Definition time_ne_double (t1 : time) (rhs : double) : option bool :=
  tr <- time_of_double rhs ;; Some (time_ne t1 tr).
Definition time_gt_double (t1 : time) (rhs : double) : option bool :=
  tr <- time_of_double rhs ;; Some (time_gt t1 tr).
Definition time_lt_double (t1 : time) (rhs : double) : option bool :=
  tr <- time_of_double rhs ;; Some (time_lt t1 tr).
Definition time_ge_double (t1 : time) (rhs : double) : option bool :=
  tr <- time_of_double rhs ;; Some (time_ge t1 tr).
Definition time_le_double (t1 : time) (rhs : double) : option bool :=
  tr <- time_of_double rhs ;; Some (time_le t1 tr).

(** plain number on the left, time on the right *)
Definition double_eq_time (lhs : double) (t1 : time) : option bool :=
  tl <- time_of_double lhs ;; Some (time_eq tl t1).
Definition double_ne_time (lhs : double) (t1 : time) : option bool :=
  tl <- time_of_double lhs ;; Some (time_ne tl t1).
Definition double_gt_time (lhs : double) (t1 : time) : option bool :=
  tl <- time_of_double lhs ;; Some (time_gt tl t1).
Definition double_lt_time (lhs : double) (t1 : time) : option bool :=
  tl <- time_of_double lhs ;; Some (time_lt tl t1).
Definition double_ge_time (lhs : double) (t1 : time) : option bool :=
  tl <- time_of_double lhs ;; Some (time_ge tl t1).
Definition double_le_time (lhs : double) (t1 : time) : option bool :=
  tl <- time_of_double lhs ;; Some (time_le tl t1).

End Wrapper.

(** ** The collector's points, their columns and the data vector

    The members [points], [data], [columns] and [recheck] of the collector
    and the functions that manage them.  A grabber is known here by what the
    collector asks of it: its [vectorGrab] flag, its description, whether it
    loaded, and the values that [grabData] hands over at this moment.  The
    index types ([fsize_t], the column's [int]) are declared outside this
    fragment; columns and counts are integers. *)
Module recorder.

Record gridGrabber : Type := mkGrabber {
  vectorGrab : bool;
  getDesc : String.string;
  loaded : bool;
  (** [double grabData ()] *)
  grabData : double;
  (** [void grabData (std::vector<double> &)] *)
  grabDataVector : list double
}.

Record stateGrabber : Type := mkStateGrabber {
  st_loaded : bool
}.

(** [collectorPoint]; a null [shared_ptr] is [None] *)
Record collectorPoint : Type := mkPoint {
  dataGrabber : option gridGrabber;
  dataGrabberSt : option stateGrabber;
  column : Z;
  colname : String.string
}.

Record state : Type := mkState {
  points : list collectorPoint;
  data : list double;
  columns : Z;
  recheck : bool
}.

(** a collector that has no point yet *)
Definition empty : state := mkState [] [] 0 false.

(** [std::vector<double>::resize (n)] *)
Definition resize (n : Z) (v : list double) : list double :=
  firstn (Z.to_nat n) v ++ repeat (S754_zero false) (Z.to_nat n - length v).

(** [v[i] = x]; outside the vector the write is undefined *)
Definition write_at (v : list double) (i : Z) (x : double) : option (list double) :=
  if (0 <=? i) && (i <? Z.of_nat (length v))
  then Some (firstn (Z.to_nat i) v ++ x :: skipn (S (Z.to_nat i)) v)
  else None.

(** [std::copy (vals.begin (), vals.end (), v.begin () + i)]; the target
    range has to lie inside the vector *)
Definition copy_at (v : list double) (i : Z) (vals : list double) : option (list double) :=
  if (0 <=? i) && (i + Z.of_nat (length vals) <=? Z.of_nat (length v))
  then Some (firstn (Z.to_nat i) v ++ vals
             ++ skipn (Z.to_nat i + length vals) v)
  else None.

(** [int collector::getColumn (int requestedColumn)] *)
Definition getColumn (s : state) (requestedColumn : Z) : Z :=
  if requestedColumn <? 0
  then (if recheck s then -1 else columns s)
  else requestedColumn.

(** [void collector::updateColumns (int requestedColumn)] *)
Definition updateColumns (s : state) (requestedColumn : Z) : state :=
  let cols := if requestedColumn >=? columns s then requestedColumn + 1 else columns s in
  mkState (points s)
          (if recheck s then data s else resize cols (data s))
          cols
          (recheck s).

(** [void collector::add (std::shared_ptr<gridGrabber> ggb, int requestedColumn)];
    the warnings about a grabber that did not load go to the helper
    object's log and [dataPointAdded] does nothing in this class *)
Definition add (s : state) (ggb : gridGrabber) (requestedColumn : Z) : state :=
  let newColumn := getColumn s requestedColumn in
  let s1 := mkState (points s) (data s) (columns s)
                    (if vectorGrab ggb then true else recheck s) in
  let s2 := updateColumns s1 newColumn in
  mkState (points s2 ++ [mkPoint (Some ggb) None newColumn (getDesc ggb)])
          (data s2) (columns s2) (recheck s2).

(** [void collector::add (std::shared_ptr<stateGrabber> sst, int requestedColumn)] *)
Definition add_state (s : state) (sst : stateGrabber) (requestedColumn : Z) : state :=
  let newColumn := getColumn s requestedColumn in
  let s2 := updateColumns s newColumn in
  mkState (points s2 ++ [mkPoint None (Some sst) newColumn String.EmptyString])
          (data s2) (columns s2) (recheck s2).

(** the number of columns a point's grabber fills *)
Definition width (g : gridGrabber) : Z :=
  if vectorGrab g then Z.of_nat (length (grabDataVector g)) else 1.

(** the loop of [recheckColumns]: the points with their columns settled,
    and the final count [ct]; it dereferences every point's [dataGrabber] *)
Fixpoint recheck_loop (pts : list collectorPoint) (ct : Z)
  : option (list collectorPoint * Z) :=
  match pts with
  | [] => Some ([], ct)
  | pt :: rest =>
      g <- dataGrabber pt ;;
      let pt1 := if column pt =? -1
                 then mkPoint (dataGrabber pt) (dataGrabberSt pt) ct (colname pt)
                 else pt in
      r <- recheck_loop rest (ct + width g) ;;
      Some (pt1 :: fst r, snd r)
  end.

(** [void collector::recheckColumns ()] *)
Definition recheckColumns (s : state) : option state :=
  r <- recheck_loop (points s) 0 ;;
  Some (mkState (fst r) (resize (snd r) (data s)) (columns s) false).

(** the capture loop of [trigger] over the points *)
Fixpoint capture_loop (pts : list collectorPoint) (v : list double)
  : option (list double) :=
  match pts with
  | [] => Some v
  | datapoint :: rest =>
      g <- dataGrabber datapoint ;;
      v1 <- (if vectorGrab g
             then copy_at v (column datapoint) (grabDataVector g)
             else write_at v (column datapoint) (grabData g)) ;;
      capture_loop rest v1
  end.

(** the head of [collector::trigger]: the recheck, then the capture *)
Definition capture (s : state) : option state :=
  s1 <- (if recheck s then recheckColumns s else Some s) ;;
  v <- capture_loop (points s1) (data s1) ;;
  Some (mkState (points s1) v (columns s1) (recheck s1)).

(** what a point's grabber hands over *)
Definition values (pt : collectorPoint) : list double :=
  match dataGrabber pt with
  | Some g => if vectorGrab g then grabDataVector g else [grabData g]
  | None => []
  end.

(** the points lie side by side from column [first] up to column [last] *)
Fixpoint tiles (first : Z) (pts : list collectorPoint) (last : Z) : Prop :=
  match pts with
  | [] => first = last
  | pt :: rest =>
      match dataGrabber pt with
      | Some g => column pt = first /\ tiles (first + width g) rest last
      | None => False
      end
  end.

(** the columns are consistent: as long as no recheck is pending, the data
    vector has one slot per column and every point's column is one of them *)
Definition consistent (s : state) : Prop :=
  0 <= columns s
  /\ (recheck s = false ->
      Z.of_nat (length (data s)) = columns s
      /\ Forall (fun pt => 0 <= column pt < columns s) (points s)).

End recorder.

(** ** The data collector's trigger

    [collector::trigger (coreTime time)].  [coreTime] is the simulator's
    compiled-in [timeRepresentation<...>], declared outside this fragment:
    the collector is modelled over every strategy. *)

Section Collector.
Context {B : Type} {R : RawType B} (T : Tconv B).

(** the members of the collector that [trigger] and [setTime] use; the
    points, the data vector, [columns] and [recheck] are kept together in
    [captured] *)
Record collector : Type := mkCollector {
  timePeriod : timeRepresentation B;
  reqPeriod : timeRepresentation B;
  startTime : timeRepresentation B;
  stopTime : timeRepresentation B;
  triggerTime : timeRepresentation B;
  lastTriggerTime : timeRepresentation B;
  captured : recorder.state
}.

(** Modelled from the spec: the constant [maxTime] is declared outside this
    fragment; the recorder marks "never trigger again" by assigning the
    maximum sentinel. *)
Definition maxTime : timeRepresentation B := time_maxVal T.

(** [while (time >= triggerTime) { triggerTime += timePeriod; ++cnt;
      if (cnt > 5) { triggerTime = time + timePeriod; } }]
    run for at most [fuel] evaluations of the loop condition *)
Fixpoint advance (fuel : nat) (time period trig : timeRepresentation B) (cnt : Z)
  : option (timeRepresentation B) :=
  match fuel with
  | O => None
  | S fuel' =>
      if time_ge time trig then
        trig1 <- time_add_assign trig period ;;
        let cnt1 := cnt + 1 in
        trig2 <- (if cnt1 >? 5 then time_add time period else Some trig1) ;;
        advance fuel' time period trig2 cnt1
      else Some trig
  end.

(** [change_code collector::trigger (coreTime time)]: the recheck and the
    capture loop, which are undefined when a point has no data grabber or a
    write leaves the data vector, then the advance of the trigger time; the
    returned code is always [change_code::no_change] *)
Definition trigger (fuel : nat) (c : collector) (time : timeRepresentation B)
  : option collector :=
  data <- recorder.capture (captured c) ;;
  trig <- advance fuel time (timePeriod c) (triggerTime c) 0 ;;
  Some {| timePeriod := timePeriod c;
          reqPeriod := reqPeriod c;
          startTime := startTime c;
          stopTime := stopTime c;
          triggerTime := if time_gt trig (stopTime c) then maxTime else trig;
          lastTriggerTime := time;
          captured := data |}.

End Collector.

Arguments mkCollector {B}.
Arguments timePeriod {B} _.
Arguments reqPeriod {B} _.
Arguments startTime {B} _.
Arguments stopTime {B} _.
Arguments triggerTime {B} _.
Arguments lastTriggerTime {B} _.
Arguments captured {B} _.

(** ** Reference readings used to compare the code against

    [convert_rounded] is the decimal encoding as the description words it,
    with the scaled value rounded to the nearest integer. *)

Definition convert_rounded (N : nat) (t : double) : option Z :=
  if Double.gtb t (Double.opp (Double.lit 1 12))
  then z <- Double.round_half_away (Double.mul t (count_time.dFactor N)) ;;
       Int64.checked z
  else Some count_time.minVal.

(** [compares_equal T x]: a time built from [x] answers every one of the
    twelve mixed comparisons against the plain number [x] the way equal
    operands do ([==], [<=], [>=] hold; [!=], [<], [>] do not) *)
Definition answers (expected : bool) (o : option bool) : bool :=
  match o with
  | Some b => Bool.eqb b expected
  | None => false
  end.

Definition compares_equal {B : Type} {R : RawType B} (T : Tconv B) (x : double) : bool :=
  match time_of_double T x with
  | None => false
  | Some t =>
      answers true (time_eq_double T t x) && answers true (double_eq_time T x t)
      && answers false (time_ne_double T t x) && answers false (double_ne_time T x t)
      && answers false (time_lt_double T t x) && answers false (double_lt_time T x t)
      && answers false (time_gt_double T t x) && answers false (double_gt_time T x t)
      && answers true (time_le_double T t x) && answers true (double_le_time T x t)
      && answers true (time_ge_double T t x) && answers true (double_ge_time T x t)
  end.

(** ** Further members of the collector *)

Section CollectorTime.
Context {B : Type} {R : RawType B}.

(** [void collector::setTime (coreTime time)] *)
Definition setTime (c : collector) (time : timeRepresentation B) : collector :=
  if time_gt time (triggerTime c)
  then {| timePeriod := timePeriod c;
          reqPeriod := reqPeriod c;
          startTime := startTime c;
          stopTime := stopTime c;
          triggerTime := time;
          lastTriggerTime := lastTriggerTime c;
          captured := captured c |}
  else c.

End CollectorTime.

(** the power of ten by which [count_time] scales a sub-second unit's
    count: the constant of the unit's arm in [toCount] and [fromCount] *)
Definition unit_exponent (u : timeUnits.t) : option nat :=
  match u with
  | timeUnits.ps => Some 12%nat
  | timeUnits.ns => Some 9%nat
  | timeUnits.us => Some 6%nat
  | timeUnits.ms => Some 3%nat
  | _ => None
  end.

(** ** The Jacobian entry interface

    [template <class X> class matrixData]: the members that the base class
    implements, over the pure virtual members that a specific instantiation
    supplies.  [index_t] and [count_t] are the 32-bit unsigned integers of
    the default build. *)
Module matrixData.

(** [static_cast<index_t> (-1)] *)
Definition invalid_index : Z := 2 ^ 32 - 1.
Definition index_range (i : Z) : Prop := 0 <= i <= invalid_index.
(** [i + 1] in [index_t] *)
Definition index_succ (i : Z) : Z := (i + 1) mod 2 ^ 32.

(** [template <class X> class matrixElement] *)
Record matrixElement (X : Type) : Type := mkElement {
  row : Z;
  col : Z;
  data : X
}.
Arguments mkElement {X} _ _ _.
Arguments row {X} _.
Arguments col {X} _.
Arguments data {X} _.

(** the pure virtual members; an instantiation keeps its entries in a
    store [M] of its own *)
Class Instantiation (X M : Type) : Type := {
  clear : M -> M;
  assign : M -> Z -> Z -> X -> M;
  size : M -> Z;
  capacity : M -> Z;
  at_ : M -> Z -> Z -> X;
  rowIndex : M -> Z -> Z;
  colIndex : M -> Z -> Z;
  val : M -> Z -> X
}.

(** the object: the instantiation's store and the base class's members
    [rowLim], [colLim] and [cur] *)
Record object (M : Type) : Type := mkObject {
  store : M;
  rowLim : Z;
  colLim : Z;
  cur : Z
}.
Arguments mkObject {M} _ _ _ _.
Arguments store {M} _.
Arguments rowLim {M} _.
Arguments colLim {M} _.
Arguments cur {M} _.

(** [for (index_t nn = 0; nn < count; ++nn) body], for a [count_t] count *)
Definition for_index {St : Type} (count : Z) (body : Z -> St -> St) (st : St) : St :=
  fold_left (fun acc nn => body (Z.of_nat nn) acc) (seq 0 (Z.to_nat count)) st.

Section Base.
Context {X M : Type} {I : Instantiation X M}.

(** [matrixData (index_t rows = index_t (-1), index_t cols = index_t (-1))] *)
Definition construct (m : M) (rows cols : Z) : object M := mkObject m rows cols 0.
Definition construct_default (m : M) : object M :=
  construct m invalid_index invalid_index.

(** a call of the virtual [assign] on the object *)
Definition assign_entry (a : object M) (r c : Z) (num : X) : object M :=
  mkObject (assign (store a) r c num) (rowLim a) (colLim a) (cur a).

Definition assignCheckRow (a : object M) (r c : Z) (num : X) : object M :=
  if r <? rowLim a then assign_entry a r c num else a.

Definition assignCheckCol (a : object M) (r c : Z) (num : X) : object M :=
  if c <? colLim a then assign_entry a r c num else a.

Definition assignCheck (a : object M) (r c : Z) (num : X) : object M :=
  if (r <? rowLim a) && (c <? colLim a) then assign_entry a r c num else a.

Definition rowLimit (a : object M) : Z := rowLim a.
Definition colLimit (a : object M) : Z := colLim a.
Definition setRowLimit (a : object M) (limit : Z) : object M :=
  mkObject (store a) limit (colLim a) (cur a).
Definition setColLimit (a : object M) (limit : Z) : object M :=
  mkObject (store a) (rowLim a) limit (cur a).

(** [virtual void start ()] *)
Definition start (a : object M) : object M :=
  mkObject (store a) (rowLim a) (colLim a) 0.

(** the triple stored under the element number [n] *)
Definition element (a : object M) (n : Z) : matrixElement X :=
  mkElement (rowIndex (store a) n) (colIndex (store a) n) (val (store a) n).

(** [virtual matrixElement<X> next ()]:
    [return { rowIndex (cur), colIndex (cur), val (cur++) };] *)
Definition next (a : object M) : matrixElement X * object M :=
  (element a (cur a),
   mkObject (store a) (rowLim a) (colLim a) (index_succ (cur a))).

(** [virtual bool moreData ()] *)
Definition moreData (a : object M) : bool := cur a <? size (store a).

(** *** The iterators *)

(** [class matrixIteratorActual]: a position in a matrix it refers to *)
Record matrixIteratorActual : Type := mkIteratorActual {
  currentElement : Z;
  mD : object M
}.

Definition clone (it : matrixIteratorActual) : matrixIteratorActual :=
  mkIteratorActual (currentElement it) (mD it).
Definition increment (it : matrixIteratorActual) : matrixIteratorActual :=
  mkIteratorActual (index_succ (currentElement it)) (mD it).
Definition isEqual (it it2 : matrixIteratorActual) : bool :=
  currentElement it =? currentElement it2.
Definition dereference (it : matrixIteratorActual) : matrixElement X :=
  element (mD it) (currentElement it).

(** [class matrixIterator]: the owner of one [matrixIteratorActual]; the
    pointer is null once the iterator was moved from, and using it then is
    undefined *)
Record matrixIterator : Type := mkIterator {
  iteratorActual : option matrixIteratorActual
}.

(** [matrixIterator (const matrixData<X> &matrixData, index_t start = 0)] *)
Definition iterator_at (a : object M) (first : Z) : matrixIterator :=
  mkIterator (Some (mkIteratorActual first a)).
(** the copy constructor and the copy assignment *)
Definition iterator_copy (mI : matrixIterator) : option matrixIterator :=
  it <- iteratorActual mI ;; Some (mkIterator (Some (clone it))).
(** the move constructor and the move assignment: the new iterator and what
    is left of the old one *)
Definition iterator_move (mI : matrixIterator) : matrixIterator * matrixIterator :=
  (mkIterator (iteratorActual mI), mkIterator None).
(** [operator++ ()] *)
Definition iterator_incr (mI : matrixIterator) : option matrixIterator :=
  it <- iteratorActual mI ;; Some (mkIterator (Some (increment it))).
(** [operator++ (int)]: the value before, and the iterator after *)
Definition iterator_post_incr (mI : matrixIterator)
  : option (matrixIterator * matrixIterator) :=
  retval <- iterator_copy mI ;;
  after <- iterator_incr mI ;;
  Some (retval, after).
(** [operator==], [operator!=] *)
Definition iterator_eq (mI it2 : matrixIterator) : option bool :=
  a <- iteratorActual mI ;; b <- iteratorActual it2 ;; Some (isEqual a b).
Definition iterator_ne (mI it2 : matrixIterator) : option bool :=
  a <- iteratorActual mI ;; b <- iteratorActual it2 ;; Some (negb (isEqual a b)).
(** [operator* ()] *)
Definition iterator_deref (mI : matrixIterator) : option (matrixElement X) :=
  it <- iteratorActual mI ;; Some (dereference it).

(** [begin ()] and [end ()] *)
Definition begin_ (a : object M) : matrixIterator := iterator_at a 0.
Definition end_ (a : object M) : matrixIterator := iterator_at a (size (store a)).

(** [n] times [++it] *)
Fixpoint iterator_advance (n : nat) (mI : matrixIterator) : option matrixIterator :=
  match n with
  | O => Some mI
  | S n' => it <- iterator_incr mI ;; iterator_advance n' it
  end.

(** [n] times [next ()]: the triples handed out, and the object after *)
Fixpoint next_n (n : nat) (a : object M) : list (matrixElement X) * object M :=
  match n with
  | O => ([], a)
  | S n' =>
      let '(tp, a1) := next a in
      let '(rest, a2) := next_n n' a1 in
      (tp :: rest, a2)
  end.

(** the call of [assign] that a bulk operation makes for one triple *)
Definition assign_element (acc : object M) (e : matrixElement X) : object M :=
  assign_entry acc (row e) (col e) (data e).

(** the stored triples in the order of their element numbers *)
Definition elements (a : object M) : list (matrixElement X) :=
  map (fun n => element a (Z.of_nat n)) (seq 0 (Z.to_nat (size (store a)))).

End Base.


(** *** The bulk operations: the calling object and the argument [a2] may
    be different instantiations; they are different objects *)
Section Bulk.
Context {X M M2 : Type} {I : Instantiation X M} {I2 : Instantiation X M2}.

(** [virtual void merge (matrixData<X> &a2)]: the calling object and [a2]
    after the call *)
Definition merge (a : object M) (a2 : object M2) : object M * object M2 :=
  let count := size (store a2) in
  for_index count
    (fun _ st =>
       let '(this, other) := st in
       let '(tp, other1) := next other in
       (assign_entry this (row tp) (col tp) (data tp), other1))
    (a, start a2).

(** [virtual void merge (matrixData<X> &a2, X scale)]; [times] is the
    multiplication of [X] *)
Definition merge_scale (times : X -> X -> X) (a : object M) (a2 : object M2) (scale : X)
  : object M * object M2 :=
  let count := size (store a2) in
  for_index count
    (fun _ st =>
       let '(this, other) := st in
       let '(tp, other1) := next other in
       (assign_entry this (row tp) (col tp) (times (data tp) scale), other1))
    (a, start a2).

(** [virtual void copyTranslateRow (matrixData<X> &a2, index_t origRow,
    index_t newRow)] *)
Definition copyTranslateRow (a : object M) (a2 : object M2) (origRow newRow : Z)
  : object M * object M2 :=
  let count := size (store a2) in
  let other := start a2 in
  (for_index count
     (fun nn this =>
        if rowIndex (store other) nn =? origRow
        then assign_entry this newRow (colIndex (store other) nn) (val (store other) nn)
        else this)
     a,
   other).

End Bulk.

(** *** A plain instantiation: the entries in the order they were assigned *)
Definition entry_list (X : Type) : Type := list (matrixElement X).

Definition entry_list_instantiation (X : Type) (zero : X)
  : Instantiation X (entry_list X) := {|
  clear := fun _ => [];
  assign := fun m r c num => m ++ [mkElement r c num];
  size := fun m => Z.of_nat (length m);
  capacity := fun m => Z.of_nat (length m);
  at_ := fun m r c =>
    match find (fun e => (row e =? r) && (col e =? c)) m with
    | Some e => data e
    | None => zero
    end;
  rowIndex := fun m n => match nth_error m (Z.to_nat n) with
                         | Some e => row e | None => invalid_index end;
  colIndex := fun m n => match nth_error m (Z.to_nat n) with
                         | Some e => col e | None => invalid_index end;
  val := fun m n => match nth_error m (Z.to_nat n) with
                    | Some e => data e | None => zero end
|}.

End matrixData.

(** * Properties *)

(** ** Auxiliary facts: the error monad, [Int64], [Double] *)

Lemma bind_Some {A C : Type} (c : option A) (k : A -> option C) (b : C) :
  bind c k = Some b -> exists a, c = Some a /\ k a = Some b.
Proof.
  destruct c as [a|]; simpl; intros E.
  - exists a. split; [reflexivity | exact E].
  - discriminate.
Qed.

Lemma Int64_in_rangeb_spec z : Int64.in_rangeb z = true <-> Int64.in_range z.
Proof.
  unfold Int64.in_rangeb, Int64.in_range.
  rewrite andb_true_iff, !Z.leb_le. tauto.
Qed.

Lemma Int64_checked_in_range z : Int64.in_range z -> Int64.checked z = Some z.
Proof.
  intros H. unfold Int64.checked.
  apply Int64_in_rangeb_spec in H. now rewrite H.
Qed.

Lemma Int64_checked_Some z r :
  Int64.checked z = Some r -> r = z /\ Int64.in_range z.
Proof.
  unfold Int64.checked. destruct (Int64.in_rangeb z) eqn:E; [|discriminate].
  intros [= <-]. split; [reflexivity | now apply Int64_in_rangeb_spec].
Qed.

(** comparing the other way round gives the opposite answer *)
Lemma SFcompare_swap (x y : double) :
  SFcompare y x = option_map CompOpp (SFcompare x y).
Proof.
  destruct x as [sx|sx| |sx mx ex], y as [sy|sy| |sy my ey]; simpl;
    try reflexivity;
    try (destruct sx; reflexivity);
    try (destruct sy; reflexivity);
    try (destruct sx, sy; reflexivity).
  destruct sx, sy; simpl; try reflexivity;
    rewrite (Z.compare_antisym ey ex);
    destruct (ey ?= ex); simpl; try reflexivity;
    rewrite (Pos.compare_cont_antisym mx my Eq); reflexivity.
Qed.

Lemma Double_leb_not_gtb (x y : double) :
  Double.leb x y = true -> Double.gtb x y = false.
Proof.
  unfold Double.leb, Double.gtb, Double.ltb, SFleb, SFltb.
  rewrite (SFcompare_swap x y).
  destruct (SFcompare x y) as [[| |]|]; simpl; congruence.
Qed.

(** [trunc] discards the fraction: the result is the integer nearest to
    zero-side of the value [m * 2^e] *)
Lemma Double_trunc_toward_zero (sgn : bool) (m p : positive) (z : Z) :
  Double.trunc (S754_finite sgn m (Zneg p)) = Some z ->
  z = cond_Zopp sgn (Z.abs z)
  /\ Z.abs z * 2 ^ Zpos p <= Zpos m < (Z.abs z + 1) * 2 ^ Zpos p.
Proof.
  unfold Double.trunc. intros [= <-].
  change (Z.pow_pos 2 p) with (2 ^ Zpos p).
  assert (Hpow : 0 < 2 ^ Zpos p) by (apply Z.pow_pos_nonneg; lia).
  assert (Hq : 0 <= Zpos m / 2 ^ Zpos p) by (apply Z.div_pos; lia).
  assert (Habs : Z.abs (cond_Zopp sgn (Zpos m / 2 ^ Zpos p)) = Zpos m / 2 ^ Zpos p).
  { destruct sgn; simpl; lia. }
  split; [destruct sgn; simpl in *; lia|]. rewrite Habs.
  pose proof (Z.mul_div_le (Zpos m) (2 ^ Zpos p) Hpow).
  pose proof (Z.mul_succ_div_gt (Zpos m) (2 ^ Zpos p) Hpow).
  lia.
Qed.

(** ** Binary fixed point: [convert] *)

(** whatever the input, [convert] hands back [nseconds] only below
    [-1e12] and the minimum sentinel everywhere else *)
Lemma integer_time_convert_cases (N : nat) (t : double) (r : Z) :
  integer_time.convert N t = Some r ->
  if Double.ltb t (Double.opp (Double.lit 1 12))
  then integer_time.nseconds N t = Some r
  else r = integer_time.minVal.
Proof.
  unfold integer_time.convert. intros H.
  apply bind_Some in H. destruct H as (ns & Hns & H).
  destruct (Double.ltb t (Double.opp (Double.lit 1 12))); congruence.
Qed.

(** C1: the binary fixed-point [convert] selects the wrong arm.  At the
    ordinary input 1.0 s (N = 4) it assembles the encoding 256 and then
    returns the minimum sentinel instead; at -2e12 s, inside the sentinel
    region, it returns the assembled encoding and not the sentinel. *)
Theorem integer_time_convert_selects_wrong_arm :
  Double.gtb (Double.lit 1 0) (Double.opp (Double.lit 1 12)) = true
  /\ integer_time.nseconds 4 (Double.lit 1 0) = Some 256
  /\ integer_time.convert 4 (Double.lit 1 0) = Some integer_time.minVal
  /\ Double.leb (Double.opp (Double.lit 2 12)) (Double.opp (Double.lit 1 12)) = true
  /\ integer_time.convert 4 (Double.opp (Double.lit 2 12)) = Some (-512000000000000)
  /\ -512000000000000 <> integer_time.minVal.
Proof.
  repeat split; try (vm_compute; reflexivity).
  vm_compute. discriminate.
Qed.

(** ** Decimal fixed point: [convert] *)

(** C2, as worded, fails: with N = 0 the input 0.75 s lies above -1e12,
    the code yields 0 while rounding the scaled value yields 1. *)
Lemma count_time_convert_not_rounded :
  Double.gtb (Double.lit 75 (-2)) (Double.opp (Double.lit 1 12)) = true
  /\ count_time.convert 0 (Double.lit 75 (-2)) = Some 0
  /\ convert_rounded 0 (Double.lit 75 (-2)) = Some 1
  /\ count_time.convert 0 (Double.lit 75 (-2)) <> convert_rounded 0 (Double.lit 75 (-2)).
Proof.
  repeat split; try (vm_compute; reflexivity).
  vm_compute. discriminate.
Qed.

(** C2, amended: for every input strictly above -1e12 the decimal
    [convert] is the double product [t * 10^N] with its fraction discarded
    (truncation toward zero: the result has the product's sign and the
    largest integer magnitude not above the product's; undefined when that
    integer does not fit 64 bits); for every input at or below -1e12, and
    for NaN, it is the minimum sentinel. *)
Theorem count_time_convert_truncates (N : nat) (t : double) :
  (Double.gtb t (Double.opp (Double.lit 1 12)) = true ->
     count_time.convert N t
     = (z <- Double.trunc (Double.mul t (count_time.dFactor N)) ;; Int64.checked z)
     /\ forall (sgn : bool) (m p : positive) (z : Z),
          Double.mul t (count_time.dFactor N) = S754_finite sgn m (Zneg p) ->
          count_time.convert N t = Some z ->
          z = cond_Zopp sgn (Z.abs z)
          /\ Z.abs z * 2 ^ Zpos p <= Zpos m < (Z.abs z + 1) * 2 ^ Zpos p)
  /\ (Double.leb t (Double.opp (Double.lit 1 12)) = true ->
     count_time.convert N t = Some count_time.minVal)
  /\ (t = S754_nan -> count_time.convert N t = Some count_time.minVal).
Proof.
  unfold count_time.convert. split; [|split].
  - intros ->. split; [reflexivity|].
    intros sgn m p z Hprod Hz. unfold Double.to_int64 in Hz.
    apply bind_Some in Hz. destruct Hz as (z0 & Htr & Hck).
    apply Int64_checked_Some in Hck. destruct Hck as [-> _].
    rewrite Hprod in Htr. now apply Double_trunc_toward_zero.
  - intros H. now rewrite (Double_leb_not_gtb _ _ H).
  - intros ->. reflexivity.
Qed.

Lemma count_time_convert_truncates_witness :
  Double.gtb (Double.lit 19 (-4)) (Double.opp (Double.lit 1 12)) = true
  /\ count_time.convert 3 (Double.lit 19 (-4)) = Some 1
  /\ Double.leb (Double.opp (Double.lit 1 12)) (Double.opp (Double.lit 1 12)) = true
  /\ count_time.convert 3 (Double.opp (Double.lit 1 12)) = Some count_time.minVal.
Proof.
  assert (Hgt : Double.gtb (Double.lit 19 (-4)) (Double.opp (Double.lit 1 12)) = true)
    by (vm_compute; reflexivity).
  assert (Hle : Double.leb (Double.opp (Double.lit 1 12)) (Double.opp (Double.lit 1 12)) = true)
    by (vm_compute; reflexivity).
  destruct (count_time_convert_truncates 3 (Double.lit 19 (-4))) as (Hup & _ & _).
  destruct (count_time_convert_truncates 3 (Double.opp (Double.lit 1 12))) as (_ & Hlow & _).
  split; [exact Hgt|].
  split; [rewrite (proj1 (Hup Hgt)); vm_compute; reflexivity|].
  split; [exact Hle | exact (Hlow Hle)].
Defined.

(** ** The unit-conversion tables *)

(** C8: the forward and reverse tables hold, unit by unit, exactly the
    listed factors (1e12/1e-12 for ps down to 1.0/1.0 for s and sec, then
    10/60 and 60 for minutes, 1/3600 and 3600 for hr, 1/86400 and 86400 for
    day), nine entries each; and the minutes pair is not reciprocal: its
    product is 10, not 1. *)
Theorem unit_tables_contents :
  length timeCountforward = 9%nat /\ length timeCountReverse = 9%nat
  /\ forward_factor timeUnits.ps = Double.lit 1 12
  /\ reverse_factor timeUnits.ps = Double.lit 1 (-12)
  /\ forward_factor timeUnits.ns = Double.lit 1 9
  /\ reverse_factor timeUnits.ns = Double.lit 1 (-9)
  /\ forward_factor timeUnits.us = Double.lit 1 6
  /\ reverse_factor timeUnits.us = Double.lit 1 (-6)
  /\ forward_factor timeUnits.ms = Double.lit 1 3
  /\ reverse_factor timeUnits.ms = Double.lit 1 (-3)
  /\ forward_factor timeUnits.s = Double.lit 1 0
  /\ reverse_factor timeUnits.s = Double.lit 1 0
  /\ forward_factor timeUnits.sec = Double.lit 1 0
  /\ reverse_factor timeUnits.sec = Double.lit 1 0
  /\ forward_factor timeUnits.minutes = Double.div (Double.lit 10 0) (Double.lit 60 0)
  /\ reverse_factor timeUnits.minutes = Double.lit 60 0
  /\ forward_factor timeUnits.hr = Double.div (Double.lit 1 0) (Double.lit 3600 0)
  /\ reverse_factor timeUnits.hr = Double.lit 3600 0
  /\ forward_factor timeUnits.day = Double.div (Double.lit 1 0) (Double.lit 86400 0)
  /\ reverse_factor timeUnits.day = Double.lit 86400 0
  /\ Double.mul (forward_factor timeUnits.minutes) (reverse_factor timeUnits.minutes)
     = Double.lit 10 0
  /\ Double.eqb (Double.mul (forward_factor timeUnits.minutes)
                            (reverse_factor timeUnits.minutes))
                (Double.lit 1 0) = false.
Proof. repeat split; vm_compute; reflexivity. Qed.

(** ** Construction *)

(** C5, as worded, fails: the defaulted constructor leaves the raw value as
    it finds it; over storage that held 7 the new time value is not the
    zero sentinel of the decimal strategy. *)
Lemma default_ctor_not_zero :
  default_ctor 7 <> time_zeroVal (count_time.strategy 9)
  /\ time_eq (default_ctor 7) (time_zeroVal (count_time.strategy 9)) = false.
Proof. split; [discriminate | reflexivity]. Qed.

(** C5, amended: under each of the three strategies a value-initialised
    time value, and the value the [zeroVal ()] factory builds, hold the
    strategy's zero sentinel as raw value; the defaulted constructor itself
    writes nothing and keeps the storage's content. *)
Theorem value_init_is_zero_sentinel :
  (forall N, value_init = time_zeroVal (integer_time.strategy N)
             /\ timecode_ (time_zeroVal (integer_time.strategy N)) = integer_time.zeroVal)
  /\ (forall N, value_init = time_zeroVal (count_time.strategy N)
             /\ timecode_ (time_zeroVal (count_time.strategy N)) = count_time.zeroVal)
  /\ (value_init = time_zeroVal double_time.strategy
      /\ timecode_ (time_zeroVal double_time.strategy) = double_time.zeroVal)
  /\ (forall (B : Type) (storage : B), timecode_ (default_ctor storage) = storage).
Proof. repeat split. Qed.

(** ** Scaling and ratios *)

(** C3, as worded, fails: under the decimal strategy with N = 0 the time
    value 1 s scaled by 0.5 is re-encoded to raw 0, which decodes to 0.0 and
    not to 1.0 * 0.5. *)
Lemma time_mul_double_not_exact :
  time_mul_double (count_time.strategy 0) (mkTime 1) (Double.lit 5 (-1)) = Some (mkTime 0)
  /\ time_to_double (count_time.strategy 0) (mkTime 0) = Double.lit 0 0
  /\ Double.mul (time_to_double (count_time.strategy 0) (mkTime 1)) (Double.lit 5 (-1))
     = Double.lit 5 (-1)
  /\ Double.eqb (time_to_double (count_time.strategy 0) (mkTime 0))
                (Double.mul (time_to_double (count_time.strategy 0) (mkTime 1))
                            (Double.lit 5 (-1))) = false.
Proof. repeat split; vm_compute; reflexivity. Qed.

(** C3, amended: under every strategy [T * x] is the time value whose raw
    value is [convert (decode T * x)] (decode, scale, re-encode), so its
    decoded value is [decode T * x] only up to what [convert] keeps, and
    exactly that under the floating passthrough; [x * T] is the plain real
    [x * decode T]; [A / B] is the plain real [decode A / decode B]; and
    [x / T] is the plain real [x / decode T]. *)
Theorem scaling_is_asymmetric :
  (forall (B : Type) (R : RawType B) (T : Tconv B)
          (A A' : timeRepresentation B) (x : double),
      time_mul_double T A x
      = (r <- convert (Double.mul (toDouble (timecode_ A)) x) ;; Some (mkTime r))
      /\ double_mul_time T x A = Double.mul x (toDouble (timecode_ A))
      /\ time_div_time T A A' = Double.div (toDouble (timecode_ A)) (toDouble (timecode_ A'))
      /\ double_div_time T x A = Double.div x (toDouble (timecode_ A)))
  /\ (forall (A : timeRepresentation double) (x : double),
      exists P, time_mul_double double_time.strategy A x = Some P
                /\ time_to_double double_time.strategy P
                   = Double.mul (time_to_double double_time.strategy A) x).
Proof.
  split.
  - intros B R T A A' x. repeat split.
  - intros A x. eexists. split; reflexivity.
Qed.

(** the worked example: 2.0 s scaled by 3.0 under the nanosecond encoding *)
Example scaling_two_by_three :
  time_of_double (count_time.strategy 9) (Double.lit 2 0) = Some (mkTime 2000000000)
  /\ time_mul_double (count_time.strategy 9) (mkTime 2000000000) (Double.lit 3 0)
     = Some (mkTime 6000000000)
  /\ time_to_double (count_time.strategy 9) (mkTime 6000000000) = Double.lit 6 0
  /\ double_mul_time (count_time.strategy 9) (Double.lit 3 0) (mkTime 2000000000)
     = Double.lit 6 0
  /\ time_div_time (count_time.strategy 9) (mkTime 6000000000) (mkTime 3000000000)
     = Double.lit 2 0.
Proof. repeat split; vm_compute; reflexivity. Qed.

(** ** Comparisons *)

Lemma count_time_five_compares_equal (N : nat) :
  (N < 16)%nat -> compares_equal (count_time.strategy N) (Double.lit 5 0) = true.
Proof.
  intros H.
  do 16 (destruct N as [|N]; [vm_compute; reflexivity|]).
  lia.
Qed.

Lemma integer_time_five_compares_equal (N : nat) :
  (N < 31)%nat -> compares_equal (integer_time.strategy N) (Double.lit 5 0) = true.
Proof.
  intros H.
  do 31 (destruct N as [|N]; [vm_compute; reflexivity|]).
  lia.
Qed.

(** C4: the six comparisons between two time values are the comparisons of
    their raw values; a comparison between a time value and a plain real, in
    either order, encodes the real with the strategy's [convert] and then
    compares raw values; hence, under the decimal strategy (N < 16), the
    binary strategy (N < 31, where [1 << N] is an [int]) and the floating
    passthrough, a time value built from 5.0 s answers all twelve mixed
    comparisons against the real 5.0 as equal operands do. *)
Theorem comparisons_on_raw_values :
  (forall (B : Type) (R : RawType B) (T : Tconv B)
          (a b : timeRepresentation B) (x : double),
      (time_eq a b = raw_eqb (timecode_ a) (timecode_ b)
       /\ time_ne a b = raw_neb (timecode_ a) (timecode_ b)
       /\ time_lt a b = raw_ltb (timecode_ a) (timecode_ b)
       /\ time_gt a b = raw_gtb (timecode_ a) (timecode_ b)
       /\ time_le a b = raw_leb (timecode_ a) (timecode_ b)
       /\ time_ge a b = raw_geb (timecode_ a) (timecode_ b))
      /\ (time_eq_double T a x = (r <- convert x ;; Some (raw_eqb (timecode_ a) r))
       /\ time_ne_double T a x = (r <- convert x ;; Some (raw_neb (timecode_ a) r))
       /\ time_lt_double T a x = (r <- convert x ;; Some (raw_ltb (timecode_ a) r))
       /\ time_gt_double T a x = (r <- convert x ;; Some (raw_gtb (timecode_ a) r))
       /\ time_le_double T a x = (r <- convert x ;; Some (raw_leb (timecode_ a) r))
       /\ time_ge_double T a x = (r <- convert x ;; Some (raw_geb (timecode_ a) r)))
      /\ (double_eq_time T x a = (r <- convert x ;; Some (raw_eqb r (timecode_ a)))
       /\ double_ne_time T x a = (r <- convert x ;; Some (raw_neb r (timecode_ a)))
       /\ double_lt_time T x a = (r <- convert x ;; Some (raw_ltb r (timecode_ a)))
       /\ double_gt_time T x a = (r <- convert x ;; Some (raw_gtb r (timecode_ a)))
       /\ double_le_time T x a = (r <- convert x ;; Some (raw_leb r (timecode_ a)))
       /\ double_ge_time T x a = (r <- convert x ;; Some (raw_geb r (timecode_ a)))))
  /\ (forall N, (N < 16)%nat ->
        compares_equal (count_time.strategy N) (Double.lit 5 0) = true)
  /\ (forall N, (N < 31)%nat ->
        compares_equal (integer_time.strategy N) (Double.lit 5 0) = true)
  /\ compares_equal double_time.strategy (Double.lit 5 0) = true.
Proof.
  split; [|split; [|split]].
  - intros B R T a b x.
    unfold time_eq_double, time_ne_double, time_lt_double, time_gt_double,
      time_le_double, time_ge_double, double_eq_time, double_ne_time,
      double_lt_time, double_gt_time, double_le_time, double_ge_time,
      time_of_double.
    destruct (convert x); repeat split.
  - exact count_time_five_compares_equal.
  - exact integer_time_five_compares_equal.
  - vm_compute. reflexivity.
Qed.

Lemma comparisons_on_raw_values_witness :
  (9 < 16)%nat /\ (4 < 31)%nat
  /\ compares_equal (count_time.strategy 9) (Double.lit 5 0) = true
  /\ compares_equal (integer_time.strategy 4) (Double.lit 5 0) = true.
Proof.
  destruct comparisons_on_raw_values as (_ & Hc & Hi & _).
  split; [lia|]. split; [lia|].
  split; [apply (Hc 9%nat); lia | apply (Hi 4%nat); lia].
Defined.

(** ** Counts in a named unit *)

(** C6: under the decimal strategy with N = 9, [fromCount] and [toCount] in
    nanoseconds are the identity on every 64-bit count, so converting a
    count to a time and back returns it unchanged, both on the strategy and
    through the wrapper; and the time value built from 1.000000001 s has
    the nanosecond count 1000000001. *)
Theorem count_time9_nanoseconds_exact (c : Z) (Hc : Int64.in_range c) :
  count_time.fromCount 9 c timeUnits.ns = Some c
  /\ count_time.toCount 9 c timeUnits.ns = Some c
  /\ (r <- count_time.fromCount 9 c timeUnits.ns ;;
      count_time.toCount 9 r timeUnits.ns) = Some c
  /\ (t <- time_of_count (count_time.strategy 9) c timeUnits.ns ;;
      time_toCount (count_time.strategy 9) t timeUnits.ns) = Some c
  /\ (t <- time_of_double (count_time.strategy 9) (Double.lit 1000000001 (-9)) ;;
      time_toCount (count_time.strategy 9) t timeUnits.ns) = Some 1000000001.
Proof.
  assert (Hfrom : count_time.fromCount 9 c timeUnits.ns = Some c).
  { unfold count_time.fromCount, count_time.scale_up_down, Int64.mul. simpl.
    rewrite Z.mul_1_r. now apply Int64_checked_in_range. }
  assert (Hto : count_time.toCount 9 c timeUnits.ns = Some c).
  { unfold count_time.toCount, count_time.scale_down_up, Int64.div. simpl.
    rewrite Z.quot_1_r. now apply Int64_checked_in_range. }
  split; [exact Hfrom|]. split; [exact Hto|].
  split; [rewrite Hfrom; exact Hto|]. split.
  - unfold time_of_count, time_toCount.
    change (fromCount c timeUnits.ns) with (count_time.fromCount 9 c timeUnits.ns).
    rewrite Hfrom. exact Hto.
  - vm_compute. reflexivity.
Qed.

Lemma count_time9_nanoseconds_exact_witness :
  Int64.in_range 1234567890123
  /\ (t <- time_of_count (count_time.strategy 9) 1234567890123 timeUnits.ns ;;
      time_toCount (count_time.strategy 9) t timeUnits.ns) = Some 1234567890123.
Proof.
  assert (H : Int64.in_range 1234567890123) by (unfold Int64.in_range; vm_compute; split; discriminate).
  split; [exact H|].
  exact (proj1 (proj2 (proj2 (proj2 (count_time9_nanoseconds_exact 1234567890123 H))))).
Defined.

(** ** Division and remainder on raw values *)

(** the truncated quotient fits 64 bits unless it is [min_int / -1] *)
Lemma Int64_quot_in_range (a d : Z) :
  Int64.in_range a -> d <> 0 -> ~ (a = Int64.min_int /\ d = -1) ->
  Int64.in_range (Z.quot a d).
Proof.
  unfold Int64.in_range, Int64.min_int, Int64.max_int.
  intros Ha Hd Hex.
  assert (Habs : Z.abs (Z.quot a d) * Z.abs d <= Z.abs a).
  { rewrite <- (Z.quot_abs a d Hd).
    pose proof (Z.mul_quot_le (Z.abs a) (Z.abs d)). lia. }
  destruct (Z.eq_dec d 1) as [->|H1].
  { rewrite Z.quot_1_r. lia. }
  destruct (Z.eq_dec d (-1)) as [->|H2].
  { assert (a <> - 2 ^ 63) by (intros ->; apply Hex; split; reflexivity).
    change (Z.quot a (-1)) with (Z.quot a (Z.opp 1)).
    rewrite Z.quot_opp_r by lia. rewrite Z.quot_1_r. lia. }
  assert (2 <= Z.abs d) by lia.
  assert (Z.abs (Z.quot a d) * 2 <= Z.abs a) by nia.
  lia.
Qed.

Lemma Int64_div_defined (a d : Z) :
  Int64.in_range a -> d <> 0 -> ~ (a = Int64.min_int /\ d = -1) ->
  Int64.div a d = Some (Z.quot a d).
Proof.
  intros Ha Hd Hex. unfold Int64.div.
  destruct (Z.eqb_spec d 0) as [->|_]; [contradiction|].
  apply Int64_checked_in_range. now apply Int64_quot_in_range.
Qed.

Lemma Int64_rem_defined (a b : Z) :
  b <> 0 -> Int64.in_range (Z.quot a b) -> Int64.rem a b = Some (Z.rem a b).
Proof.
  intros Hb Hq. unfold Int64.rem.
  destruct (Z.eqb_spec b 0) as [->|_]; [contradiction|].
  apply Int64_in_rangeb_spec in Hq. now rewrite Hq.
Qed.

(** C7, as worded, fails: not every two time values have a remainder.
    Under the binary strategy with N = 4 the minimum sentinel modulo the
    raw value -1 is undefined (the quotient 2^63 is not representable),
    although the remainder of the two raw values, 0, is; and so is every
    time value modulo the raw value 0. *)
Lemma modulo_undefined_for_some_pairs :
  Int64.in_range (timecode_ (time_minVal (integer_time.strategy 4)))
  /\ Int64.in_range (-1)
  /\ Z.rem (timecode_ (time_minVal (integer_time.strategy 4))) (-1) = 0
  /\ time_mod (integer_time.strategy 4)
       (time_minVal (integer_time.strategy 4)) (mkTime (-1)) = None
  /\ time_mod (integer_time.strategy 4)
       (time_minVal (integer_time.strategy 4)) (mkTime (-1))
     <> Some (mkTime (Z.rem (timecode_ (time_minVal (integer_time.strategy 4))) (-1)))
  /\ time_mod (integer_time.strategy 4) (mkTime 37) (mkTime 0) = None
  /\ time_mod_assign (integer_time.strategy 4) (mkTime 37) (mkTime 0) = None.
Proof.
  split; [unfold Int64.in_range; vm_compute; split; discriminate|].
  split; [unfold Int64.in_range; vm_compute; split; discriminate|].
  split; [reflexivity|]. split; [reflexivity|].
  split; [discriminate|]. split; reflexivity.
Qed.

(** C7, amended: under a strategy whose raw type is the 64-bit integer, for
    every two time values whose divisor is not zero and whose quotient is
    representable, [A % B] and [A %= B] are the integer remainder of the
    raw values, computed on them directly, whatever the strategy's [convert]
    and [toDouble] are; with the binary strategy and N = 4, raw 37 % raw 16
    is raw 5. *)
Theorem modulo_on_raw_values (T : @Tconv Z int64_raw) (a b : Z)
    (Hb : b <> 0) (Hq : Int64.in_range (Z.quot a b)) :
  (time_mod T (mkTime a) (mkTime b) = Some (mkTime (Z.rem a b))
   /\ time_mod_assign T (mkTime a) (mkTime b) = Some (mkTime (Z.rem a b)))
  /\ time_mod (integer_time.strategy 4) (mkTime 37) (mkTime 16) = Some (mkTime 5)
  /\ time_mod_assign (integer_time.strategy 4) (mkTime 37) (mkTime 16) = Some (mkTime 5).
Proof.
  split; [|split; reflexivity].
  unfold time_mod, time_mod_assign. simpl.
  rewrite (Int64_rem_defined a b Hb Hq). split; reflexivity.
Qed.

Lemma modulo_on_raw_values_witness :
  16 <> 0 /\ Int64.in_range (Z.quot (-37) 16)
  /\ time_mod (count_time.strategy 9) (mkTime (-37)) (mkTime 16) = Some (mkTime (-5)).
Proof.
  assert (Hb : 16 <> 0) by discriminate.
  assert (Hq : Int64.in_range (Z.quot (-37) 16))
    by (unfold Int64.in_range; vm_compute; split; discriminate).
  split; [exact Hb|]. split; [exact Hq|].
  exact (proj1 (proj1 (modulo_on_raw_values (count_time.strategy 9) (-37) 16 Hb Hq))).
Defined.

(** C10, as worded, fails: a nonzero divisor is not enough.  The minimum
    sentinel divided by -1 has the quotient 2^63, which no 64-bit value
    holds: [/], [/=], [%] and [%=] are all undefined there. *)
Lemma division_undefined_min_by_minus_one :
  -1 <> 0
  /\ Int64.in_range (timecode_ (time_minVal (count_time.strategy 9)))
  /\ ~ Int64.in_range (Z.quot (timecode_ (time_minVal (count_time.strategy 9))) (-1))
  /\ time_div_int (time_minVal (count_time.strategy 9)) (-1) = None
  /\ time_div_assign_int (time_minVal (count_time.strategy 9)) (-1) = None
  /\ time_mod (count_time.strategy 9)
       (time_minVal (count_time.strategy 9)) (mkTime (-1)) = None
  /\ time_mod_assign (count_time.strategy 9)
       (time_minVal (count_time.strategy 9)) (mkTime (-1)) = None.
Proof.
  split; [discriminate|].
  split; [unfold Int64.in_range; vm_compute; split; discriminate|].
  split; [unfold Int64.in_range; vm_compute; intros [_ H]; apply H; reflexivity|].
  repeat split.
Qed.

(** C10, amended: under an integer strategy, for every time value [a] and
    divisor [d] that is neither zero nor -1 against the minimum raw value,
    [a / d] and [a /= d] yield the truncated quotient of the raw value, and
    for every [b] whose raw value is neither zero nor -1 against the minimum
    raw value, [a % b] and [a %= b] yield the remainder of the raw values;
    the operators carry no guard, so a zero divisor leaves all four
    undefined.  Under the floating passthrough [a / d] and [a /= d] are the
    IEEE quotient of the raw value, for every [d]. *)
Theorem raw_division_unguarded (T : @Tconv Z int64_raw) (a d : Z)
    (Ha : Int64.in_range a) :
  (d <> 0 -> ~ (a = Int64.min_int /\ d = -1) ->
     time_div_int (mkTime a) d = Some (mkTime (Z.quot a d))
     /\ time_div_assign_int (mkTime a) d = Some (mkTime (Z.quot a d))
     /\ time_mod T (mkTime a) (mkTime d) = Some (mkTime (Z.rem a d))
     /\ time_mod_assign T (mkTime a) (mkTime d) = Some (mkTime (Z.rem a d)))
  /\ (time_div_int (mkTime a) 0 = None
      /\ time_div_assign_int (mkTime a) 0 = None
      /\ time_mod T (mkTime a) (mkTime 0) = None
      /\ time_mod_assign T (mkTime a) (mkTime 0) = None)
  /\ (forall x : double,
        time_div_int (mkTime x) d = Some (mkTime (Double.div x (Double.of_Z d)))
        /\ time_div_assign_int (mkTime x) d
           = Some (mkTime (Double.div x (Double.of_Z d)))).
Proof.
  split; [|split].
  - intros Hd Hex.
    pose proof (Int64_quot_in_range a d Ha Hd Hex) as Hq.
    unfold time_div_int, time_div_assign_int, time_mod, time_mod_assign. simpl.
    rewrite (Int64_div_defined a d Ha Hd Hex), (Int64_rem_defined a d Hd Hq).
    repeat split.
  - repeat split.
  - intros x. split; reflexivity.
Qed.

Lemma raw_division_unguarded_witness :
  Int64.in_range (-37) /\ 16 <> 0
  /\ time_div_int (mkTime (-37)) 16 = Some (mkTime (-2))
  /\ time_mod (integer_time.strategy 4) (mkTime (-37)) (mkTime 16) = Some (mkTime (-5)).
Proof.
  assert (Ha : Int64.in_range (-37))
    by (unfold Int64.in_range; vm_compute; split; discriminate).
  assert (Hd : 16 <> 0) by discriminate.
  assert (Hex : ~ (-37 = Int64.min_int /\ 16 = -1)) by (intros [_ H]; discriminate H).
  destruct (raw_division_unguarded (integer_time.strategy 4) (-37) 16 Ha)
    as (Hdef & _).
  destruct (Hdef Hd Hex) as (Hdiv & _ & Hmod & _).
  split; [exact Ha|]. split; [exact Hd|]. split; [exact Hdiv | exact Hmod].
Defined.

(** ** The collector's trigger *)


Section TriggerFacts.
Context (T : @Tconv Z int64_raw).

(** both integer strategies take the largest 64-bit value as [maxVal] *)
Hypothesis maxVal_is_max : @maxVal Z int64_raw T = Int64.max_int.




End TriggerFacts.


(** a run of the recorder: period 1 s, trigger time 0, sampled at 2.5 s *)
Example trigger_run :
  option_map
    (fun c' => (timecode_ (lastTriggerTime c'), timecode_ (triggerTime c')))
    (trigger (count_time.strategy 9) 7
      {| timePeriod := mkTime 1000000000; reqPeriod := mkTime 1000000000;
         startTime := mkTime Int64.min_int; stopTime := mkTime 20000000000;
         triggerTime := mkTime 0; lastTriggerTime := mkTime Int64.min_int;
         captured := recorder.empty |}
      (mkTime 2500000000))
  = Some (2500000000, 3000000000).
Proof. vm_compute. reflexivity. Qed.

(** * Further properties of the time values *)

(** ** Arithmetic on integer raw values *)

Lemma time_eta {B : Type} (a : timeRepresentation B) : mkTime (timecode_ a) = a.
Proof. destruct a. reflexivity. Qed.

(** X1: under an integer strategy addition and subtraction undo each
    other: when [a + b] is representable, [(a + b) - b] is [a], and when
    [a - b] is representable, [(a - b) + b] is [a]. *)
Theorem time_add_sub_inverse (a b r : timeRepresentation Z)
    (Ha : Int64.in_range (timecode_ a)) :
  (time_add a b = Some r -> time_sub r b = Some a)
  /\ (time_sub a b = Some r -> time_add r b = Some a).
Proof.
  unfold time_add, time_sub. simpl. unfold Int64.add, Int64.sub. split; intros H;
    apply bind_Some in H; destruct H as (z & Hz & [= <-]);
    apply Int64_checked_Some in Hz; destruct Hz as [-> _]; simpl.
  - replace (timecode_ a + timecode_ b - timecode_ b) with (timecode_ a) by lia.
    rewrite (Int64_checked_in_range _ Ha). simpl. now rewrite time_eta.
  - replace (timecode_ a - timecode_ b + timecode_ b) with (timecode_ a) by lia.
    rewrite (Int64_checked_in_range _ Ha). simpl. now rewrite time_eta.
Qed.

Lemma time_add_sub_inverse_witness :
  Int64.in_range 1500
  /\ time_add (mkTime 1500) (mkTime (-2000)) = Some (mkTime (-500))
  /\ time_sub (mkTime (-500)) (mkTime (-2000)) = Some (mkTime 1500).
Proof.
  assert (Ha : Int64.in_range 1500)
    by (unfold Int64.in_range; vm_compute; split; discriminate).
  assert (Hadd : time_add (mkTime 1500) (mkTime (-2000)) = Some (mkTime (-500)))
    by reflexivity.
  split; [exact Ha|]. split; [exact Hadd|].
  exact (proj1 (time_add_sub_inverse (mkTime 1500) (mkTime (-2000)) (mkTime (-500)) Ha) Hadd).
Defined.

(** X2: under an integer strategy, scaling by a nonzero [int] and dividing
    by it again gives the time value back, whenever the product is
    representable. *)
Theorem time_mul_div_inverse (a r : timeRepresentation Z) (d : Z)
    (Ha : Int64.in_range (timecode_ a)) (Hd : d <> 0) :
  time_mul_int a d = Some r -> time_div_int r d = Some a.
Proof.
  unfold time_mul_int, time_div_int. simpl. unfold Int64.mul. intros H.
  apply bind_Some in H. destruct H as (z & Hz & [= <-]).
  apply Int64_checked_Some in Hz. destruct Hz as [-> Hr]. simpl.
  rewrite (Int64_div_defined _ d Hr Hd).
  - simpl. rewrite Z.quot_mul by exact Hd. now rewrite time_eta.
  - intros [Hmin ->]. unfold Int64.in_range, Int64.min_int, Int64.max_int in *. lia.
Qed.

Lemma time_mul_div_inverse_witness :
  Int64.in_range (-37) /\ -3 <> 0
  /\ time_mul_int (mkTime (-37)) (-3) = Some (mkTime 111)
  /\ time_div_int (mkTime 111) (-3) = Some (mkTime (-37)).
Proof.
  assert (Ha : Int64.in_range (-37))
    by (unfold Int64.in_range; vm_compute; split; discriminate).
  assert (Hd : -3 <> 0) by discriminate.
  assert (Hmul : time_mul_int (mkTime (-37)) (-3) = Some (mkTime 111)) by reflexivity.
  split; [exact Ha|]. split; [exact Hd|]. split; [exact Hmul|].
  exact (time_mul_div_inverse (mkTime (-37)) (mkTime 111) (-3) Ha Hd Hmul).
Defined.



(** ** Comparisons *)

(** X4: under an integer strategy the six comparisons form a total order
    on the raw values: [!=] is the negation of [==], [<=] of [>], [>=] of
    [<]; [>] and [>=] are [<] and [<=] with the operands exchanged; [==]
    holds exactly for the same time value; and exactly one of [<], [==],
    [>] holds. *)
Theorem integer_comparisons_total (a b : timeRepresentation Z) :
  time_ne a b = negb (time_eq a b)
  /\ time_le a b = negb (time_gt a b)
  /\ time_ge a b = negb (time_lt a b)
  /\ time_gt a b = time_lt b a
  /\ time_ge a b = time_le b a
  /\ (time_eq a b = true <-> a = b)
  /\ ((time_lt a b = true /\ time_eq a b = false /\ time_gt a b = false)
      \/ (time_lt a b = false /\ time_eq a b = true /\ time_gt a b = false)
      \/ (time_lt a b = false /\ time_eq a b = false /\ time_gt a b = true)).
Proof.
  destruct a as [x], b as [y].
  unfold time_ne, time_eq, time_le, time_gt, time_ge, time_lt. simpl.
  rewrite !Z.geb_leb, !Z.gtb_ltb.
  destruct (Z.ltb_spec x y), (Z.ltb_spec y x), (Z.leb_spec x y), (Z.leb_spec y x),
    (Z.eqb_spec x y); try lia; simpl;
    (repeat split; try reflexivity; try (intros; congruence); try (intros [= ?]; lia));
    auto.
Qed.

Lemma integer_comparisons_total_witness :
  time_eq (B := Z) (mkTime 5) (mkTime 5) = true
  /\ time_lt (B := Z) (mkTime 5) (mkTime 5) = false.
Proof.
  destruct (integer_comparisons_total (mkTime 5) (mkTime 5))
    as (_ & _ & _ & _ & _ & Heq & Hone).
  assert (H : time_eq (B := Z) (mkTime 5) (mkTime 5) = true) by (apply Heq; reflexivity).
  split; [exact H|].
  destruct Hone as [(_ & Hf & _) | [(Hlt & _ & _) | (_ & Hf & _)]];
    [congruence | exact Hlt | congruence].
Defined.

(** X5: the floating passthrough accepts NaN as a time, and such a time is
    unordered: against every time value, itself included, [==], [<], [>],
    [<=] and [>=] are false in either order and [!=] is true.  The decimal
    strategy never holds NaN: it encodes it as the minimum sentinel. *)
Theorem double_time_nan_unordered (y : timeRepresentation double) :
  time_of_double double_time.strategy S754_nan = Some (mkTime S754_nan)
  /\ (time_eq (mkTime S754_nan) y = false /\ time_eq y (mkTime S754_nan) = false
      /\ time_lt (mkTime S754_nan) y = false /\ time_lt y (mkTime S754_nan) = false
      /\ time_gt (mkTime S754_nan) y = false /\ time_gt y (mkTime S754_nan) = false
      /\ time_le (mkTime S754_nan) y = false /\ time_le y (mkTime S754_nan) = false
      /\ time_ge (mkTime S754_nan) y = false /\ time_ge y (mkTime S754_nan) = false
      /\ time_ne (mkTime S754_nan) y = true /\ time_ne y (mkTime S754_nan) = true)
  /\ time_eq (B := double) (mkTime S754_nan) (mkTime S754_nan) = false
  /\ (forall N, time_of_double (count_time.strategy N) S754_nan
                = Some (time_minVal (count_time.strategy N))).
Proof.
  split; [reflexivity|]. split; [|split; [reflexivity | intros N; reflexivity]].
  destruct y as [[s|s| |s m e]]; repeat split.
Qed.

(** ** Whole seconds *)

Lemma fac10_nth (k : nat) : (k < 16)%nat -> nth k fac10 0 = 10 ^ Z.of_nat k.
Proof.
  intros H. do 16 (destruct k as [|k]; [reflexivity|]). lia.
Qed.

Lemma fac10_pos (k : nat) : (k < 16)%nat -> 0 < nth k fac10 0.
Proof.
  intros H. rewrite (fac10_nth k H). apply Z.pow_pos_nonneg; lia.
Qed.

(** X6: [seconds] rounds differently under the two integer strategies.  The
    binary one shifts, which floors: its result [q] satisfies
    [q * 2^N <= val < (q + 1) * 2^N] also for negative values.  The decimal
    one divides, which truncates toward zero: [|q| * 10^N <= |val| <
    (|q| + 1) * 10^N], with [q] never of the sign opposite to [val]'s. *)
Theorem seconds_floor_or_truncate (N : nat) (val : Z) :
  (exists q, integer_time.seconds N val = Some q
             /\ q * 2 ^ Z.of_nat N <= val < (q + 1) * 2 ^ Z.of_nat N)
  /\ ((N < 16)%nat -> Int64.in_range val ->
      exists q, count_time.seconds N val = Some q
                /\ Z.abs q * 10 ^ Z.of_nat N <= Z.abs val < (Z.abs q + 1) * 10 ^ Z.of_nat N
                /\ 0 <= q * val).
Proof.
  split.
  - exists (val / 2 ^ Z.of_nat N).
    assert (Hpow : 0 < 2 ^ Z.of_nat N) by (apply Z.pow_pos_nonneg; lia).
    split.
    + unfold integer_time.seconds, Int64.shr.
      rewrite Z.shiftr_div_pow2 by lia. reflexivity.
    + pose proof (Z.mul_div_le val _ Hpow).
      pose proof (Z.mul_succ_div_gt val _ Hpow). lia.
  - intros HN Hval.
    pose proof (fac10_pos N HN) as Hpos. rewrite (fac10_nth N HN) in Hpos.
    set (f := 10 ^ Z.of_nat N) in *.
    exists (Z.quot val f). split; [|split].
    + unfold count_time.seconds, count_time.iFactor. rewrite (fac10_nth N HN).
      apply Int64_div_defined; [exact Hval | lia | lia].
    + assert (Hq : Z.abs (Z.quot val f) = Z.quot (Z.abs val) f).
      { rewrite <- (Z.quot_abs val f) by lia. now rewrite (Z.abs_eq f) by lia. }
      rewrite Hq.
      assert (Hf : f <> 0) by lia.
      pose proof (Z.mul_quot_le (Z.abs val) f (Z.abs_nonneg val) Hf).
      pose proof (Z.mul_succ_quot_gt (Z.abs val) f (Z.abs_nonneg val) Hpos). lia.
    + destruct (Z.le_gt_cases 0 val) as [Hp|Hn].
      * pose proof (Z.mul_quot_le val f Hp). nia.
      * assert (Hle : val <= 0) by lia.
        pose proof (Z.mul_quot_ge val f Hle). nia.
Qed.

Lemma seconds_floor_or_truncate_witness :
  (3 < 16)%nat /\ Int64.in_range (-1)
  /\ integer_time.seconds 3 (-1) = Some (-1)
  /\ count_time.seconds 3 (-1) = Some 0.
Proof.
  assert (HN : (3 < 16)%nat) by lia.
  assert (Hv : Int64.in_range (-1))
    by (unfold Int64.in_range; vm_compute; split; discriminate).
  destruct (seconds_floor_or_truncate 3 (-1)) as ((q & Hq & _) & Hc).
  destruct (Hc HN Hv) as (q' & Hq' & _).
  split; [exact HN|]. split; [exact Hv|].
  split; [rewrite Hq | rewrite Hq']; vm_compute in Hq, Hq' |- *; congruence.
Defined.

(** ** The tables of powers *)

(** X7: the two tables of powers of ten agree: for every k below 16,
    [fac10[k]] is [10^k] and [fac10f[k]] is that integer as a double, with
    no rounding; and for every exponent below 64, [pow2] is the exact power
    of two, so that the binary strategy's [multiplier] and [divisor] are
    exact reciprocals. *)
Theorem power_tables_exact (k : nat) :
  ((k < 16)%nat ->
     nth k fac10 0 = 10 ^ Z.of_nat k
     /\ nth k fac10f S754_nan = Double.of_Z (nth k fac10 0))
  /\ ((k < 64)%nat ->
     pow2 k = Double.of_Z (2 ^ Z.of_nat k)
     /\ Double.mul (integer_time.multiplier k) (integer_time.divisor k) = Double.lit 1 0).
Proof.
  split; intros H.
  - do 16 (destruct k as [|k]; [split; vm_compute; reflexivity|]). lia.
  - do 64 (destruct k as [|k]; [split; vm_compute; reflexivity|]). lia.
Qed.

Lemma power_tables_exact_witness :
  (9 < 16)%nat /\ nth 9 fac10 0 = 1000000000
  /\ nth 9 fac10f S754_nan = Double.of_Z 1000000000.
Proof.
  assert (H : (9 < 16)%nat) by lia.
  destruct (proj1 (power_tables_exact 9) H) as (Hi & Hf).
  split; [exact H|]. split; [exact Hi | exact Hf].
Defined.

(** ** Counts in a named unit, decimal strategy *)

Lemma fac10_le (k : nat) : (k < 16)%nat -> nth k fac10 0 <= 10 ^ 15.
Proof.
  intros H. rewrite (fac10_nth k H). apply Z.pow_le_mono_r; lia.
Qed.

Lemma Int64_mul_then_div (c f r : Z) :
  0 < f -> Int64.mul c f = Some r -> Int64.div r f = Some c.
Proof.
  intros Hf H. unfold Int64.mul in H.
  apply Int64_checked_Some in H. destruct H as [-> Hr].
  rewrite (Int64_div_defined _ f Hr); [| lia | lia].
  now rewrite Z.quot_mul by lia.
Qed.

Lemma Int64_coarse_round_trip (c m iF r : Z) :
  0 < m -> 0 < iF -> Int64.in_range (iF * m) ->
  (v <- Int64.mul c m ;; Int64.mul v iF) = Some r ->
  (d <- Int64.mul iF m ;; Int64.div r d) = Some c.
Proof.
  intros Hm HiF Hd H.
  apply bind_Some in H. destruct H as (v & Hv & Hr).
  unfold Int64.mul in Hv, Hr.
  apply Int64_checked_Some in Hv. destruct Hv as [-> _].
  apply Int64_checked_Some in Hr. destruct Hr as [-> Hr].
  unfold Int64.mul at 1. rewrite (Int64_checked_in_range _ Hd). simpl.
  rewrite (Int64_div_defined _ (iF * m) Hr); [| nia | nia].
  replace (c * m * iF) with (c * (iF * m)) by ring.
  now rewrite Z.quot_mul by nia.
Qed.

(** X8: under the decimal strategy a count survives the round trip through
    a time value whenever the unit is not finer than the tick (and, for
    days, N is below 15): if [fromCount (c, u)] is representable then
    [toCount] of it in the same unit is [c] again. *)
Theorem count_time_count_round_trip (N : nat) (u : timeUnits.t) (c r : Z)
    (HN : (N < 16)%nat)
    (Hfine : forall k, unit_exponent u = Some k -> (k <= N)%nat)
    (Hday : u = timeUnits.day -> (N < 15)%nat) :
  count_time.fromCount N c u = Some r -> count_time.toCount N r u = Some c.
Proof.
  pose proof (fac10_pos N HN) as HiF. pose proof (fac10_le N HN) as HiFle.
  assert (Hsub : forall k, (k <= N)%nat ->
            count_time.scale_up_down N k c = Some r ->
            count_time.scale_down_up N k r = Some c).
  { intros k Hk. unfold count_time.scale_up_down, count_time.scale_down_up.
    destruct (Nat.leb_spec k N) as [_|]; [|lia].
    apply Int64_mul_then_div. apply fac10_pos. lia. }
  change (nth N fac10 0) with (count_time.iFactor N) in HiF, HiFle.
  assert (Hrange : forall m, 0 < m <= 86400 -> count_time.iFactor N * m <= 10 ^ 14 * 86400 ->
            Int64.in_range (count_time.iFactor N * m)).
  { intros m Hm Hle. unfold Int64.in_range, Int64.min_int, Int64.max_int. nia. }
  destruct u; simpl.
  - apply Hsub. apply Hfine. reflexivity.
  - apply Hsub. apply Hfine. reflexivity.
  - apply Hsub. apply Hfine. reflexivity.
  - apply Hsub. apply Hfine. reflexivity.
  - unfold count_time.seconds. apply Int64_mul_then_div. exact HiF.
  - unfold count_time.seconds. apply Int64_mul_then_div. exact HiF.
  - apply Int64_coarse_round_trip; [lia | exact HiF | apply Hrange; lia].
  - apply Int64_coarse_round_trip; [lia | exact HiF | apply Hrange; lia].
  - specialize (Hday eq_refl).
    assert (Hle : count_time.iFactor N <= 10 ^ 14).
    { unfold count_time.iFactor. rewrite (fac10_nth N HN).
      apply Z.pow_le_mono_r; lia. }
    apply Int64_coarse_round_trip; [lia | exact HiF | apply Hrange; lia].
Qed.

Lemma count_time_count_round_trip_witness :
  count_time.fromCount 9 90 timeUnits.minutes = Some 5400000000000
  /\ count_time.toCount 9 5400000000000 timeUnits.minutes = Some 90.
Proof.
  assert (HN : (9 < 16)%nat) by lia.
  assert (Hfine : forall k, unit_exponent timeUnits.minutes = Some k -> (k <= 9)%nat)
    by (intros k Hk; discriminate Hk).
  assert (Hday : timeUnits.minutes = timeUnits.day -> (9 < 15)%nat) by (intros _; lia).
  assert (Hfrom : count_time.fromCount 9 90 timeUnits.minutes = Some 5400000000000)
    by (vm_compute; reflexivity).
  split; [exact Hfrom|].
  exact (count_time_count_round_trip 9 timeUnits.minutes 90 5400000000000
           HN Hfine Hday Hfrom).
Defined.

(** X9: when the unit is finer than the tick (its power of ten [k] exceeds
    N), [fromCount] drops the digits below the tick, truncating toward
    zero, and the way back does not restore them: [toCount (fromCount (c))]
    is [c] less its remainder modulo [10^(k - N)]; both conversions are
    defined for every 64-bit count. *)
Theorem count_time_finer_unit_truncates (N k : nat) (u : timeUnits.t) (c : Z)
    (Hu : unit_exponent u = Some k) (Hk : (N < k)%nat) (Hc : Int64.in_range c) :
  count_time.fromCount N c u = Some (Z.quot c (10 ^ Z.of_nat (k - N)))
  /\ count_time.toCount N (Z.quot c (10 ^ Z.of_nat (k - N))) u
     = Some (c - Z.rem c (10 ^ Z.of_nat (k - N))).
Proof.
  assert (Hk12 : (k <= 12)%nat).
  { destruct u; simpl in Hu; try discriminate; injection Hu as <-; lia. }
  assert (Hlt : (k - N < 16)%nat) by lia.
  pose proof (fac10_pos _ Hlt) as Hpos. pose proof (fac10_nth _ Hlt) as Hnth.
  set (f := 10 ^ Z.of_nat (k - N)) in *.
  assert (Hfrom : count_time.scale_up_down N k c = Some (Z.quot c f)).
  { unfold count_time.scale_up_down. destruct (Nat.leb_spec k N) as [|_]; [lia|].
    rewrite Hnth. apply Int64_div_defined; [exact Hc | lia | lia]. }
  assert (Hto : count_time.scale_down_up N k (Z.quot c f) = Some (c - Z.rem c f)).
  { unfold count_time.scale_down_up. destruct (Nat.leb_spec k N) as [|_]; [lia|].
    rewrite Hnth. unfold Int64.mul.
    assert (Heq : Z.quot c f * f = c - Z.rem c f).
    { pose proof (Z.quot_rem' c f). lia. }
    rewrite Heq. apply Int64_checked_in_range. rewrite <- Heq.
    unfold Int64.in_range, Int64.min_int, Int64.max_int in *.
    rewrite Z.mul_comm.
    destruct (Z.le_gt_cases 0 c) as [Hp|Hn].
    - assert (Hf : f <> 0) by lia.
      pose proof (Z.mul_quot_le c f Hp Hf). lia.
    - assert (Hle : c <= 0) by lia. assert (Hf : f <> 0) by lia.
      pose proof (Z.mul_quot_ge c f Hle Hf). lia. }
  destruct u; simpl in Hu; try discriminate; injection Hu as <-;
    (split; [exact Hfrom | exact Hto]).
Qed.

Lemma count_time_finer_unit_truncates_witness :
  count_time.fromCount 3 (-1234567) timeUnits.us = Some (-1234)
  /\ count_time.toCount 3 (-1234) timeUnits.us = Some (-1234000).
Proof.
  assert (Hu : unit_exponent timeUnits.us = Some 6%nat) by reflexivity.
  assert (Hk : (3 < 6)%nat) by lia.
  assert (Hc : Int64.in_range (-1234567))
    by (unfold Int64.in_range; vm_compute; split; discriminate).
  exact (count_time_finer_unit_truncates 3 6 timeUnits.us (-1234567) Hu Hk Hc).
Defined.

(** X10: with fifteen decimal digits the day is out of reach: the divisor
    [iFactor * 86400] that [toCount] forms does not fit 64 bits, so
    [toCount (val, day)] is undefined for every raw value, zero included,
    and [fromCount (c, day)] overflows for every nonzero count; with
    fourteen digits or fewer [toCount (val, day)] is defined for every
    64-bit raw value. *)
Theorem count_time_day_needs_fewer_digits :
  (forall val, count_time.toCount 15 val timeUnits.day = None)
  /\ (forall c, c <> 0 -> count_time.fromCount 15 c timeUnits.day = None)
  /\ (forall N val, (N < 15)%nat -> Int64.in_range val ->
        exists q, count_time.toCount N val timeUnits.day = Some q).
Proof.
  split; [|split].
  - intros val. reflexivity.
  - intros c Hc. unfold count_time.fromCount, Int64.mul.
    destruct (Int64.checked (c * 86400)) as [v|] eqn:Hv; [|reflexivity].
    apply Int64_checked_Some in Hv. destruct Hv as [-> _]. simpl.
    unfold Int64.checked.
    destruct (Int64.in_rangeb (c * 86400 * count_time.iFactor 15)) eqn:E; [|reflexivity].
    apply Int64_in_rangeb_spec in E.
    unfold Int64.in_range, Int64.min_int, Int64.max_int in E.
    change (count_time.iFactor 15) with 1000000000000000 in E. lia.
  - intros N val HN Hval.
    assert (HN16 : (N < 16)%nat) by lia.
    pose proof (fac10_pos N HN16) as Hpos.
    assert (Hle : count_time.iFactor N <= 10 ^ 14).
    { unfold count_time.iFactor. rewrite (fac10_nth N HN16).
      apply Z.pow_le_mono_r; lia. }
    unfold count_time.toCount, Int64.mul.
    rewrite Int64_checked_in_range.
    + simpl. eexists. apply Int64_div_defined; [exact Hval| |];
        unfold count_time.iFactor in *; lia.
    + unfold Int64.in_range, Int64.min_int, Int64.max_int, count_time.iFactor in *. lia.
Qed.

Lemma count_time_day_needs_fewer_digits_witness :
  exists q, count_time.toCount 9 172800000000000 timeUnits.day = Some q.
Proof.
  assert (HN : (9 < 15)%nat) by lia.
  assert (Hv : Int64.in_range 172800000000000)
    by (unfold Int64.in_range; vm_compute; split; discriminate).
  exact (proj2 (proj2 count_time_day_needs_fewer_digits) 9%nat 172800000000000 HN Hv).
Defined.

(** ** Sentinels *)

(** X11: under both integer strategies the sentinels bracket every raw
    value, [minVal <= x <= maxVal], with [minVal < zeroVal < epsilon <
    maxVal], and [epsilon] is the least time above zero.  Under the floating
    passthrough the same chain holds, but the sentinels are not extremes:
    there is a time strictly between zero and [epsilon], one above [maxVal]
    and one below [minVal]. *)
Theorem sentinels_ordered :
  (forall (N : nat) (T : Tconv Z),
      T = integer_time.strategy N \/ T = count_time.strategy N ->
      time_lt (time_minVal T) (time_zeroVal T) = true
      /\ time_lt (time_zeroVal T) (time_epsilon T) = true
      /\ time_lt (time_epsilon T) (time_maxVal T) = true
      /\ (forall x, Int64.in_range (timecode_ x) ->
            time_le (time_minVal T) x = true /\ time_le x (time_maxVal T) = true)
      /\ (forall x, time_gt x (time_zeroVal T) = true ->
            time_ge x (time_epsilon T) = true))
  /\ (time_lt (time_minVal double_time.strategy) (time_zeroVal double_time.strategy) = true
      /\ time_lt (time_zeroVal double_time.strategy) (time_epsilon double_time.strategy) = true
      /\ time_lt (time_epsilon double_time.strategy) (time_maxVal double_time.strategy) = true
      /\ (time_gt (mkTime (Double.lit 1 (-100))) (time_zeroVal double_time.strategy) = true
          /\ time_lt (mkTime (Double.lit 1 (-100))) (time_epsilon double_time.strategy) = true)
      /\ time_gt (mkTime (Double.lit 1 50)) (time_maxVal double_time.strategy) = true
      /\ time_lt (mkTime (Double.opp (Double.lit 1 50))) (time_minVal double_time.strategy) = true).
Proof.
  split.
  - intros N T [-> | ->];
      (split; [reflexivity|]; split; [reflexivity|]; split; [reflexivity|]; split;
       [ intros [x] Hx; unfold time_le, time_minVal, time_maxVal; simpl in *;
         unfold Int64.in_range in Hx;
         split; apply Z.leb_le; unfold integer_time.minVal, integer_time.maxVal,
           count_time.minVal, count_time.maxVal; lia
       | intros [x]; unfold time_gt, time_ge, time_zeroVal, time_epsilon; simpl;
         unfold integer_time.zeroVal, integer_time.epsilon,
           count_time.zeroVal, count_time.epsilon;
         rewrite Z.gtb_ltb, Z.geb_leb; intros Hx; apply Z.ltb_lt in Hx;
         apply Z.leb_le; lia ]).
  - repeat split; vm_compute; reflexivity.
Qed.

Lemma sentinels_ordered_witness :
  time_lt (time_minVal (count_time.strategy 9)) (time_zeroVal (count_time.strategy 9)) = true
  /\ time_lt (time_epsilon (integer_time.strategy 4)) (time_maxVal (integer_time.strategy 4)) = true.
Proof.
  destruct (proj1 sentinels_ordered 9%nat (count_time.strategy 9) (or_intror eq_refl))
    as (H1 & _).
  destruct (proj1 sentinels_ordered 4%nat (integer_time.strategy 4) (or_introl eq_refl))
    as (_ & _ & H3 & _).
  split; [exact H1 | exact H3].
Defined.

(** ** Binary fixed point: what construction yields *)

(** X12: under the binary strategy every time value built from a number of
    seconds that is not below -1e12 is the minimum sentinel; hence any two
    such time values are the same value, equal under [==] and unordered
    under [<], whatever the two numbers were. *)
Theorem integer_time_ordinary_times_coincide (N : nat) (t1 t2 : double)
    (a b : timeRepresentation Z)
    (H1 : Double.ltb t1 (Double.opp (Double.lit 1 12)) = false)
    (H2 : Double.ltb t2 (Double.opp (Double.lit 1 12)) = false) :
  time_of_double (integer_time.strategy N) t1 = Some a ->
  time_of_double (integer_time.strategy N) t2 = Some b ->
  a = time_minVal (integer_time.strategy N)
  /\ a = b /\ time_eq a b = true /\ time_lt a b = false.
Proof.
  unfold time_of_double. simpl. intros Ha Hb.
  apply bind_Some in Ha. destruct Ha as (ra & Hra & [= <-]).
  apply bind_Some in Hb. destruct Hb as (rb & Hrb & [= <-]).
  apply integer_time_convert_cases in Hra. rewrite H1 in Hra.
  apply integer_time_convert_cases in Hrb. rewrite H2 in Hrb.
  subst ra rb. repeat split.
Qed.

Lemma integer_time_ordinary_times_coincide_witness :
  time_of_double (integer_time.strategy 4) (Double.lit 1 0) = Some (mkTime Int64.min_int)
  /\ time_of_double (integer_time.strategy 4) (Double.lit 25 (-1)) = Some (mkTime Int64.min_int)
  /\ time_eq (B := Z) (mkTime Int64.min_int) (mkTime Int64.min_int) = true.
Proof.
  assert (H1 : Double.ltb (Double.lit 1 0) (Double.opp (Double.lit 1 12)) = false)
    by (vm_compute; reflexivity).
  assert (H2 : Double.ltb (Double.lit 25 (-1)) (Double.opp (Double.lit 1 12)) = false)
    by (vm_compute; reflexivity).
  assert (Ha : time_of_double (integer_time.strategy 4) (Double.lit 1 0)
               = Some (mkTime Int64.min_int)) by (vm_compute; reflexivity).
  assert (Hb : time_of_double (integer_time.strategy 4) (Double.lit 25 (-1))
               = Some (mkTime Int64.min_int)) by (vm_compute; reflexivity).
  split; [exact Ha|]. split; [exact Hb|].
  exact (proj1 (proj2 (proj2 (integer_time_ordinary_times_coincide 4 _ _ _ _ H1 H2 Ha Hb)))).
Defined.

(** * Further properties of the collector *)

(** X13: under an integer strategy [setTime] only ever moves the trigger
    time forward: afterwards it is the later of the old trigger time and
    the given time, every other member is untouched, and repeating a call
    or exchanging two calls changes nothing. *)
Theorem setTime_moves_forward_only (c : collector (B := Z))
    (t t' : timeRepresentation Z) :
  timecode_ (triggerTime (setTime c t))
  = Z.max (timecode_ (triggerTime c)) (timecode_ t)
  /\ time_ge (triggerTime (setTime c t)) (triggerTime c) = true
  /\ (timePeriod (setTime c t) = timePeriod c
      /\ reqPeriod (setTime c t) = reqPeriod c
      /\ startTime (setTime c t) = startTime c
      /\ stopTime (setTime c t) = stopTime c
      /\ lastTriggerTime (setTime c t) = lastTriggerTime c
      /\ captured (setTime c t) = captured c)
  /\ setTime (setTime c t) t = setTime c t
  /\ setTime (setTime c t) t' = setTime (setTime c t') t.
Proof.
  destruct c as [tp rp st sp [g] lt cap], t as [x], t' as [y].
  unfold setTime, time_gt, time_ge. simpl.
  repeat (rewrite ?Z.gtb_ltb, ?Z.geb_leb;
          match goal with
          | |- context [Z.ltb ?a ?b] => destruct (Z.ltb_spec a b)
          end; simpl);
    rewrite ?Z.geb_leb;
    repeat split; try reflexivity; try lia; try (apply Z.leb_le; lia);
    repeat f_equal; simpl in *; lia.
Qed.

(** ** Where [trigger] leaves the trigger time *)

(** X14: [trigger] keeps the sampling grid while it can.  With a positive
    period and [time + period] representable, the loop leaves the trigger
    time unchanged if it is still ahead of [time]; otherwise, if [time]
    lies less than five periods past it, the trigger time is advanced by
    whole periods to the first grid point after [time]; and if five periods
    or more were missed, the grid is dropped and the trigger time becomes
    [time + period]. *)
Theorem advance_keeps_grid (time period trig : timeRepresentation Z)
    (Hpos : 0 < timecode_ period)
    (Htrig : Int64.in_range (timecode_ trig))
    (Hsum : Int64.in_range (timecode_ time + timecode_ period)) :
  exists r,
    advance 7 time period trig 0 = Some r
    /\ (timecode_ time < timecode_ trig -> r = trig)
    /\ (forall k, 1 <= k <= 5 ->
          timecode_ trig + (k - 1) * timecode_ period <= timecode_ time
                                                      < timecode_ trig + k * timecode_ period ->
          timecode_ r = timecode_ trig + k * timecode_ period)
    /\ (timecode_ trig + 5 * timecode_ period <= timecode_ time ->
          timecode_ r = timecode_ time + timecode_ period).
Proof.
  destruct time as [t], period as [p], trig as [g]. cbn [timecode_] in *.
  unfold Int64.in_range, Int64.min_int, Int64.max_int in Htrig, Hsum.
  assert (Hck : forall z, g <= z <= t + p -> Int64.checked z = Some z).
  { intros z Hz. apply Int64_checked_in_range.
    unfold Int64.in_range, Int64.min_int, Int64.max_int. lia. }
  assert (Hk : forall k, 1 <= k <= 5 -> k = 1 \/ k = 2 \/ k = 3 \/ k = 4 \/ k = 5) by lia.
  cbn [advance]. unfold time_ge, time_add_assign, time_add.
  cbn [timecode_ raw_geb raw_add int64_raw]. unfold Int64.add.
  change (0 + 1) with 1. change (1 + 1) with 2. change (2 + 1) with 3.
  change (3 + 1) with 4. change (4 + 1) with 5. change (5 + 1) with 6.
  change (6 + 1) with 7.
  do 7 (rewrite Z.geb_leb;
        match goal with
        | |- context [Z.leb ?a ?b] =>
            destruct (Z.leb_spec a b);
            [ try (rewrite (Hck (a + p)) by lia);
              cbn [bind timecode_ Z.gtb Z.compare Pos.compare Pos.compare_cont];
              try (rewrite (Hck (t + p)) by lia);
              cbn [bind timecode_]
            | eexists; split; [reflexivity|]; split;
              [ intros; first [reflexivity | exfalso; lia]
              | split;
                [ intros k Hr Hb; cbn [timecode_];
                  destruct (Hk k Hr) as [->|[->|[->|[->| ->]]]]; lia
                | intros; cbn [timecode_]; lia ] ] ]
        end; try lia).
Qed.

Lemma advance_keeps_grid_witness :
  exists r,
    advance 7 (mkTime 2500) (mkTime 1000) (mkTime 0) 0 = Some r
    /\ timecode_ r = 3000.
Proof.
  assert (Hpos : 0 < 1000) by lia.
  assert (Htrig : Int64.in_range 0)
    by (unfold Int64.in_range; vm_compute; split; discriminate).
  assert (Hsum : Int64.in_range (2500 + 1000))
    by (unfold Int64.in_range; vm_compute; split; discriminate).
  destruct (advance_keeps_grid (mkTime 2500) (mkTime 1000) (mkTime 0) Hpos Htrig Hsum)
    as (r & Hr & _ & Hgrid & _).
  exists r. split; [exact Hr|].
  apply (Hgrid 3); simpl; lia.
Defined.

(** ** The points and their columns *)

Lemma resize_length (n : Z) (v : list double) :
  length (recorder.resize n v) = Z.to_nat n.
Proof.
  unfold recorder.resize. rewrite length_app, length_firstn, repeat_length. lia.
Qed.

Lemma resize_same (v : list double) :
  recorder.resize (Z.of_nat (length v)) v = v.
Proof.
  unfold recorder.resize. rewrite Nat2Z.id, firstn_all, Nat.sub_diag. simpl.
  apply app_nil_r.
Qed.

(** X15: adding points keeps the columns consistent.  Starting from a
    collector without points, after any [add] of a grabber or of a state
    grabber, as long as no recheck is pending the data vector has exactly
    [columns] slots and every point's column indexes one of them; and a
    grabber added without a requested column while no recheck is pending
    gets the column just past the ones in use, which no earlier point
    has. *)
Theorem add_keeps_columns_consistent (s : recorder.state)
    (ggb : recorder.gridGrabber) (sst : recorder.stateGrabber) (req : Z)
    (Hs : recorder.consistent s) :
  recorder.consistent recorder.empty
  /\ recorder.consistent (recorder.add s ggb req)
  /\ recorder.consistent (recorder.add_state s sst req)
  /\ (recorder.recheck s = false -> req < 0 ->
      recorder.points (recorder.add s ggb req)
      = recorder.points s
          ++ [recorder.mkPoint (Some ggb) None (recorder.columns s) (recorder.getDesc ggb)]
      /\ recorder.columns (recorder.add s ggb req) = recorder.columns s + 1
      /\ Forall (fun pt => recorder.column pt <> recorder.columns s) (recorder.points s)).
Proof.
  destruct Hs as (Hcols & Hinv).
  assert (Hgrow : forall cols n pts,
            cols <= n ->
            Forall (fun pt => 0 <= recorder.column pt < cols) pts ->
            Forall (fun pt => 0 <= recorder.column pt < n) pts).
  { intros cols n pts Hle H. eapply Forall_impl; [|exact H]. simpl. intros pt Hpt. lia. }
  split; [|split; [|split]].
  - split; [simpl; lia|]. intros _. split; [reflexivity | constructor].
  - unfold recorder.add, recorder.updateColumns, recorder.getColumn.
    cbn [recorder.points recorder.data recorder.columns recorder.recheck].
    destruct (recorder.vectorGrab ggb), (recorder.recheck s) eqn:Hre,
      (Z.ltb_spec req 0) as [Hneg|Hnn];
      rewrite Z.geb_leb;
      match goal with |- context [Z.leb ?a ?b] => destruct (Z.leb_spec a b) end;
      try lia;
      unfold recorder.consistent;
      cbn [recorder.points recorder.data recorder.columns recorder.recheck];
      (split; [lia|]; intros Hf;
       first
         [ discriminate Hf
         | destruct (Hinv eq_refl) as (Hlen & Hpts); split;
           [ rewrite ?resize_length; lia
           | apply Forall_app; split;
             [ eapply Hgrow; [|exact Hpts]; lia
             | constructor; [simpl; lia | constructor] ] ] ]).
  - unfold recorder.add_state, recorder.updateColumns, recorder.getColumn.
    cbn [recorder.points recorder.data recorder.columns recorder.recheck].
    destruct (recorder.recheck s) eqn:Hre, (Z.ltb_spec req 0) as [Hneg|Hnn];
      rewrite Z.geb_leb;
      match goal with |- context [Z.leb ?a ?b] => destruct (Z.leb_spec a b) end;
      try lia;
      unfold recorder.consistent;
      cbn [recorder.points recorder.data recorder.columns recorder.recheck];
      (split; [lia|]; intros Hf;
       first
         [ discriminate Hf
         | destruct (Hinv eq_refl) as (Hlen & Hpts); split;
           [ rewrite ?resize_length; lia
           | apply Forall_app; split;
             [ eapply Hgrow; [|exact Hpts]; lia
             | constructor; [simpl; lia | constructor] ] ] ]).
  - intros Hre Hneg. destruct (Hinv Hre) as (Hlen & Hpts).
    unfold recorder.add, recorder.updateColumns, recorder.getColumn.
    cbn [recorder.points recorder.data recorder.columns recorder.recheck].
    rewrite Hre. destruct (Z.ltb_spec req 0) as [_|]; [|lia].
    rewrite Z.geb_leb. destruct (Z.leb_spec (recorder.columns s) (recorder.columns s)); [|lia].
    split; [reflexivity|]. split; [reflexivity|].
    eapply Forall_impl; [|exact Hpts]. simpl. intros pt Hpt. lia.
Qed.

Lemma add_keeps_columns_consistent_witness :
  recorder.consistent
    (recorder.add recorder.empty
       (recorder.mkGrabber false String.EmptyString true (Double.lit 1 0) []) (-1))
  /\ recorder.columns
       (recorder.add recorder.empty
          (recorder.mkGrabber false String.EmptyString true (Double.lit 1 0) []) (-1)) = 1.
Proof.
  assert (He : recorder.consistent recorder.empty).
  { split; [simpl; lia|]. intros _. split; [reflexivity | constructor]. }
  destruct (add_keeps_columns_consistent recorder.empty
              (recorder.mkGrabber false String.EmptyString true (Double.lit 1 0) [])
              (recorder.mkStateGrabber true) (-1) He) as (_ & Hadd & _ & _).
  split; [exact Hadd | reflexivity].
Defined.

Lemma width_nonneg (g : recorder.gridGrabber) : 0 <= recorder.width g.
Proof. unfold recorder.width. destruct (recorder.vectorGrab g); lia. Qed.

Lemma tiles_le (pts : list recorder.collectorPoint) :
  forall first last, recorder.tiles first pts last -> first <= last.
Proof.
  induction pts as [|pt rest IH]; intros first last H; simpl in H.
  - lia.
  - destruct (recorder.dataGrabber pt) as [g|]; [|contradiction].
    destruct H as (_ & H). apply IH in H. pose proof (width_nonneg g). lia.
Qed.

Lemma recheck_loop_tiles (pts : list recorder.collectorPoint) :
  Forall (fun pt => recorder.column pt = -1 /\ recorder.dataGrabber pt <> None) pts ->
  forall ct, exists pts' last,
    recorder.recheck_loop pts ct = Some (pts', last)
    /\ recorder.tiles ct pts' last
    /\ map recorder.values pts' = map recorder.values pts.
Proof.
  induction 1 as [|pt rest (Hcol & Hg) _ IH]; intros ct.
  - exists [], ct. repeat split.
  - simpl. destruct (recorder.dataGrabber pt) as [g|] eqn:Eg; [|congruence].
    destruct (IH (ct + recorder.width g)) as (pts' & last & Hloop & Htiles & Hvals).
    rewrite Hcol. simpl. rewrite Hloop. simpl.
    eexists _, last. split; [reflexivity|]. split.
    + simpl. rewrite ?Eg. split; [reflexivity | exact Htiles].
    + simpl. rewrite Hvals. f_equal. unfold recorder.values. simpl. now rewrite Eg.
Qed.

Lemma recheckColumns_tiles (s : recorder.state) :
  Forall (fun pt => recorder.column pt = -1 /\ recorder.dataGrabber pt <> None)
         (recorder.points s) ->
  exists s',
    recorder.recheckColumns s = Some s'
    /\ recorder.recheck s' = false
    /\ recorder.tiles 0 (recorder.points s') (Z.of_nat (length (recorder.data s')))
    /\ map recorder.values (recorder.points s') = map recorder.values (recorder.points s)
    /\ recorder.columns s' = recorder.columns s.
Proof.
  intros Hpts.
  destruct (recheck_loop_tiles _ Hpts 0) as (pts' & last & Hloop & Htiles & Hvals).
  unfold recorder.recheckColumns. rewrite Hloop. simpl.
  eexists. split; [reflexivity|]. simpl.
  split; [reflexivity|]. split; [|split; [exact Hvals | reflexivity]].
  rewrite resize_length. apply tiles_le in Htiles as Hle.
  rewrite Z2Nat.id by lia. exact Htiles.
Qed.

(** X16: [recheckColumns] lays points out side by side.  When every point
    has a data grabber and none has a column yet, the recheck clears the
    pending flag and gives the points consecutive column ranges, each as
    wide as its grabber's data, starting at column 0 and ending exactly at
    the new size of the data vector; [columns] is left as it was. *)
Theorem recheckColumns_lays_points_out (s : recorder.state)
    (Hpts : Forall (fun pt => recorder.column pt = -1 /\ recorder.dataGrabber pt <> None)
                   (recorder.points s)) :
  exists s',
    recorder.recheckColumns s = Some s'
    /\ recorder.recheck s' = false
    /\ recorder.tiles 0 (recorder.points s') (Z.of_nat (length (recorder.data s')))
    /\ map recorder.values (recorder.points s') = map recorder.values (recorder.points s)
    /\ recorder.columns s' = recorder.columns s.
Proof.
  destruct (recheckColumns_tiles s Hpts) as (s' & Hs' & Hre & Htiles & Hvals & Hcols).
  exists s'. split; [exact Hs'|]. split; [exact Hre|].
  split; [exact Htiles|]. split; [exact Hvals | exact Hcols].
Qed.

Lemma recheckColumns_lays_points_out_witness :
  exists s',
    recorder.recheckColumns
      (recorder.mkState
         [recorder.mkPoint
            (Some (recorder.mkGrabber true String.EmptyString true (Double.lit 0 0)
                     [Double.lit 1 0; Double.lit 2 0; Double.lit 3 0]))
            None (-1) String.EmptyString;
          recorder.mkPoint
            (Some (recorder.mkGrabber false String.EmptyString true (Double.lit 4 0) []))
            None (-1) String.EmptyString]
         [] 1 true) = Some s'
    /\ map recorder.column (recorder.points s') = [0; 3]
    /\ length (recorder.data s') = 4%nat.
Proof.
  edestruct (recheckColumns_lays_points_out
              (recorder.mkState
                 [recorder.mkPoint
                    (Some (recorder.mkGrabber true String.EmptyString true (Double.lit 0 0)
                             [Double.lit 1 0; Double.lit 2 0; Double.lit 3 0]))
                    None (-1) String.EmptyString;
                  recorder.mkPoint
                    (Some (recorder.mkGrabber false String.EmptyString true (Double.lit 4 0) []))
                    None (-1) String.EmptyString]
                 [] 1 true)) as (s' & Hs' & _).
  - repeat constructor; discriminate.
  - exists s'. split; [exact Hs'|].
    vm_compute in Hs'. injection Hs' as <-. split; reflexivity.
Defined.

(** ** What [trigger] captures *)

Lemma copy_at_app (pre mid rest vals : list double) :
  length mid = length vals ->
  recorder.copy_at (pre ++ mid ++ rest) (Z.of_nat (length pre)) vals
  = Some (pre ++ vals ++ rest).
Proof.
  intros Hlen. unfold recorder.copy_at.
  rewrite !length_app, Nat2Z.id.
  destruct (Z.leb_spec 0 (Z.of_nat (length pre))) as [_|]; [|lia].
  destruct (Z.leb_spec (Z.of_nat (length pre) + Z.of_nat (length vals))
              (Z.of_nat (length pre + (length mid + length rest)))) as [_|]; [|lia].
  simpl. f_equal.
  rewrite firstn_app, firstn_all, Nat.sub_diag. simpl. rewrite app_nil_r.
  f_equal. f_equal.
  rewrite skipn_app, skipn_all2 by lia. simpl.
  replace (length pre + length vals - length pre)%nat with (length mid) by lia.
  rewrite skipn_app, skipn_all, Nat.sub_diag. reflexivity.
Qed.

Lemma write_at_copy_at (v : list double) (i : Z) (x : double) :
  recorder.write_at v i x = recorder.copy_at v i [x].
Proof.
  unfold recorder.write_at, recorder.copy_at.
  change (Z.of_nat (length [x])) with 1. change (length [x]) with 1%nat.
  destruct (Z.leb_spec 0 i); simpl; [|reflexivity].
  destruct (Z.ltb_spec i (Z.of_nat (length v))),
    (Z.leb_spec (i + 1) (Z.of_nat (length v))); try lia; [|reflexivity].
  simpl. now rewrite Nat.add_1_r.
Qed.

Lemma values_length (pt : recorder.collectorPoint) (g : recorder.gridGrabber) :
  recorder.dataGrabber pt = Some g ->
  Z.of_nat (length (recorder.values pt)) = recorder.width g.
Proof.
  intros Hg. unfold recorder.values, recorder.width. rewrite Hg.
  destruct (recorder.vectorGrab g); reflexivity.
Qed.

Lemma capture_loop_tiles (pts : list recorder.collectorPoint) :
  forall pre rest,
    recorder.tiles (Z.of_nat (length pre)) pts (Z.of_nat (length pre + length rest)) ->
    recorder.capture_loop pts (pre ++ rest) = Some (pre ++ flat_map recorder.values pts).
Proof.
  induction pts as [|pt ps IH]; intros pre rest Ht; simpl in Ht.
  - assert (Hr : length rest = 0%nat) by lia.
    apply length_zero_iff_nil in Hr. subst rest. reflexivity.
  - destruct (recorder.dataGrabber pt) as [g|] eqn:Eg; [|contradiction].
    destruct Ht as (Hcol & Ht).
    pose proof (tiles_le _ _ _ Ht) as Hle.
    pose proof (values_length pt g Eg) as Hw.
    set (vals := recorder.values pt) in *.
    assert (Hfit : (length vals <= length rest)%nat) by lia.
    simpl. rewrite Eg. simpl.
    assert (Hstep : (if recorder.vectorGrab g
                     then recorder.copy_at (pre ++ rest) (recorder.column pt)
                            (recorder.grabDataVector g)
                     else recorder.write_at (pre ++ rest) (recorder.column pt)
                            (recorder.grabData g))
                    = Some (pre ++ vals ++ skipn (length vals) rest)).
    { rewrite write_at_copy_at, Hcol.
      replace (if recorder.vectorGrab g
               then recorder.copy_at (pre ++ rest) (Z.of_nat (length pre))
                      (recorder.grabDataVector g)
               else recorder.copy_at (pre ++ rest) (Z.of_nat (length pre))
                      [recorder.grabData g])
        with (recorder.copy_at (pre ++ rest) (Z.of_nat (length pre)) vals).
      - rewrite <- (firstn_skipn (length vals) rest) at 1.
        apply copy_at_app. rewrite length_firstn. lia.
      - unfold vals, recorder.values. rewrite Eg.
        destruct (recorder.vectorGrab g); reflexivity. }
    rewrite Hstep. simpl.
    rewrite app_assoc. rewrite (IH (pre ++ vals) (skipn (length vals) rest)).
    + now rewrite <- app_assoc.
    + rewrite length_app, length_skipn.
      replace (Z.of_nat (length pre + length vals))
        with (Z.of_nat (length pre) + recorder.width g) by lia.
      replace (length pre + length vals + (length rest - length vals))%nat
        with (length pre + length rest)%nat by lia.
      exact Ht.
Qed.

Lemma tiles_length (pts : list recorder.collectorPoint) :
  forall first last,
    recorder.tiles first pts last ->
    last = first + Z.of_nat (length (flat_map recorder.values pts)).
Proof.
  induction pts as [|pt ps IH]; intros first last Ht; simpl in Ht.
  - simpl. lia.
  - destruct (recorder.dataGrabber pt) as [g|] eqn:Eg; [|contradiction].
    destruct Ht as (_ & Ht). apply IH in Ht.
    simpl. rewrite length_app. pose proof (values_length pt g Eg). lia.
Qed.

(** X17: after a recheck the capture fills the data vector gaplessly.  If
    a recheck is pending, every point has a data grabber and none has a
    column yet, the head of [trigger] runs without touching anything
    outside the data vector, and leaves in it exactly the grabbed values of
    the points, in the order of the points: one value for a scalar grabber,
    the whole vector for a vector grabber. *)
Theorem capture_fills_data (s : recorder.state)
    (Hre : recorder.recheck s = true)
    (Hpts : Forall (fun pt => recorder.column pt = -1 /\ recorder.dataGrabber pt <> None)
                   (recorder.points s)) :
  exists s',
    recorder.capture s = Some s'
    /\ recorder.data s' = flat_map recorder.values (recorder.points s)
    /\ recorder.recheck s' = false
    /\ recorder.tiles 0 (recorder.points s') (Z.of_nat (length (recorder.data s'))).
Proof.
  destruct (recheckColumns_tiles s Hpts)
    as (s1 & Hs1 & Hre1 & Htiles & Hvals & _).
  unfold recorder.capture. rewrite Hre, Hs1. simpl.
  pose proof (capture_loop_tiles (recorder.points s1) [] (recorder.data s1) Htiles) as Hloop.
  simpl in Hloop. rewrite Hloop. simpl.
  assert (Hflat : flat_map recorder.values (recorder.points s1)
                  = flat_map recorder.values (recorder.points s)).
  { rewrite !flat_map_concat_map. now rewrite Hvals. }
  eexists. split; [reflexivity|]. simpl.
  split; [exact Hflat|]. split; [exact Hre1|].
  pose proof (tiles_length _ _ _ Htiles) as Hlen. simpl in Hlen.
  rewrite <- Hlen. exact Htiles.
Qed.

Lemma capture_fills_data_witness :
  exists s',
    recorder.capture
      (recorder.mkState
         [recorder.mkPoint
            (Some (recorder.mkGrabber true String.EmptyString true (Double.lit 0 0)
                     [Double.lit 1 0; Double.lit 2 0; Double.lit 3 0]))
            None (-1) String.EmptyString;
          recorder.mkPoint
            (Some (recorder.mkGrabber false String.EmptyString true (Double.lit 4 0) []))
            None (-1) String.EmptyString]
         [] 1 true) = Some s'
    /\ recorder.data s' = [Double.lit 1 0; Double.lit 2 0; Double.lit 3 0; Double.lit 4 0].
Proof.
  edestruct (capture_fills_data
              (recorder.mkState
                 [recorder.mkPoint
                    (Some (recorder.mkGrabber true String.EmptyString true (Double.lit 0 0)
                             [Double.lit 1 0; Double.lit 2 0; Double.lit 3 0]))
                    None (-1) String.EmptyString;
                  recorder.mkPoint
                    (Some (recorder.mkGrabber false String.EmptyString true (Double.lit 4 0) []))
                    None (-1) String.EmptyString]
                 [] 1 true)) as (s' & Hs' & Hdata & _).
  - reflexivity.
  - repeat constructor; discriminate.
  - exists s'. split; [exact Hs' | exact Hdata].
Defined.

Lemma recheck_loop_null (pts : list recorder.collectorPoint) (pt : recorder.collectorPoint) :
  In pt pts -> recorder.dataGrabber pt = None ->
  forall ct, recorder.recheck_loop pts ct = None.
Proof.
  intros Hin Hnull. induction pts as [|p ps IH]; intros ct; [contradiction|].
  simpl. destruct Hin as [->|Hin].
  - rewrite Hnull. reflexivity.
  - destruct (recorder.dataGrabber p); [|reflexivity]. simpl.
    rewrite (IH Hin). reflexivity.
Qed.

Lemma capture_loop_null (pts : list recorder.collectorPoint) (pt : recorder.collectorPoint) :
  In pt pts -> recorder.dataGrabber pt = None ->
  forall v, recorder.capture_loop pts v = None.
Proof.
  intros Hin Hnull. induction pts as [|p ps IH]; intros v; [contradiction|].
  simpl. destruct Hin as [->|Hin].
  - rewrite Hnull. reflexivity.
  - destruct (recorder.dataGrabber p) as [g|]; [|reflexivity]. simpl.
    destruct (if recorder.vectorGrab g
              then recorder.copy_at v (recorder.column p) (recorder.grabDataVector g)
              else recorder.write_at v (recorder.column p) (recorder.grabData g));
      [|reflexivity].
    simpl. apply (IH Hin).
Qed.

(** X18: the capture dereferences every point's data grabber.  A single
    point without one makes the head of [trigger] undefined, whether or not
    a recheck is pending; and this is what a point added with only a state
    grabber is, so after such an [add] the capture is undefined whatever
    the collector held before. *)
Theorem capture_needs_data_grabbers (s : recorder.state) :
  (forall pt, In pt (recorder.points s) -> recorder.dataGrabber pt = None ->
              recorder.capture s = None)
  /\ (forall sst req, recorder.capture (recorder.add_state s sst req) = None).
Proof.
  assert (Hgen : forall s0 pt, In pt (recorder.points s0) ->
                   recorder.dataGrabber pt = None -> recorder.capture s0 = None).
  { intros s0 pt Hin Hnull. unfold recorder.capture.
    destruct (recorder.recheck s0).
    - unfold recorder.recheckColumns.
      rewrite (recheck_loop_null _ pt Hin Hnull). reflexivity.
    - simpl. rewrite (capture_loop_null _ pt Hin Hnull). reflexivity. }
  split.
  - apply Hgen.
  - intros sst req.
    apply (Hgen _ (recorder.mkPoint None (Some sst) (recorder.getColumn s req)
                     String.EmptyString)); [|reflexivity].
    unfold recorder.add_state. simpl. apply in_or_app. right. left. reflexivity.
Qed.

Lemma capture_needs_data_grabbers_witness :
  recorder.capture (recorder.add_state recorder.empty (recorder.mkStateGrabber true) (-1))
  = None.
Proof.
  exact (proj2 (capture_needs_data_grabbers recorder.empty) (recorder.mkStateGrabber true) (-1)).
Defined.

(** * Properties of the Jacobian entry interface *)

Section MatrixFacts.
Context {X M : Type} {I : matrixData.Instantiation X M}.

Lemma index_succ_small (i : Z) :
  0 <= i < matrixData.invalid_index -> matrixData.index_succ i = i + 1.
Proof.
  unfold matrixData.index_succ, matrixData.invalid_index. intros H.
  apply Z.mod_small. lia.
Qed.

(** X19: the guarded assignments.  [assignCheck] is the column check
    followed by the row-checked assignment; none of the three guarded
    variants ever assigns at the index [index_t (-1)], whatever the limits;
    with the default limits every other index passes; and the limits and
    the cursor are never changed by them. *)
Theorem assignCheck_respects_limits (a : matrixData.object M) (r c : Z) (num : X)
    (Hrl : matrixData.index_range (matrixData.rowLim a))
    (Hcl : matrixData.index_range (matrixData.colLim a))
    (Hr : matrixData.index_range r) (Hc : matrixData.index_range c) :
  matrixData.assignCheck a r c num
  = (if c <? matrixData.colLim a then matrixData.assignCheckRow a r c num else a)
  /\ (r = matrixData.invalid_index ->
      matrixData.assignCheck a r c num = a /\ matrixData.assignCheckRow a r c num = a)
  /\ (c = matrixData.invalid_index ->
      matrixData.assignCheck a r c num = a /\ matrixData.assignCheckCol a r c num = a)
  /\ (r <> matrixData.invalid_index -> c <> matrixData.invalid_index ->
      matrixData.assignCheck (matrixData.construct_default (matrixData.store a)) r c num
      = matrixData.assign_entry (matrixData.construct_default (matrixData.store a)) r c num)
  /\ (matrixData.rowLim (matrixData.assignCheck a r c num) = matrixData.rowLim a
      /\ matrixData.colLim (matrixData.assignCheck a r c num) = matrixData.colLim a
      /\ matrixData.cur (matrixData.assignCheck a r c num) = matrixData.cur a).
Proof.
  unfold matrixData.index_range in *.
  unfold matrixData.assignCheck, matrixData.assignCheckRow, matrixData.assignCheckCol,
    matrixData.construct_default, matrixData.construct.
  cbn [matrixData.rowLim matrixData.colLim].
  split; [|split; [|split; [|split]]].
  - destruct (r <? matrixData.rowLim a), (c <? matrixData.colLim a); reflexivity.
  - intros ->. destruct (Z.ltb_spec matrixData.invalid_index (matrixData.rowLim a)); [lia|].
    split; reflexivity.
  - intros ->. destruct (Z.ltb_spec matrixData.invalid_index (matrixData.colLim a)); [lia|].
    rewrite andb_false_r. split; reflexivity.
  - intros Hr' Hc'.
    destruct (Z.ltb_spec r matrixData.invalid_index); [|lia].
    destruct (Z.ltb_spec c matrixData.invalid_index); [|lia]. reflexivity.
  - destruct ((r <? matrixData.rowLim a) && (c <? matrixData.colLim a));
      repeat split.
Qed.

Lemma firstn_seq_le (n : nat) :
  forall m first, (n <= m)%nat -> firstn n (seq first m) = seq first n.
Proof.
  induction n as [|n IH]; intros m first Hle; [reflexivity|].
  destruct m as [|m]; [lia|]. simpl. f_equal. apply IH. lia.
Qed.

Lemma next_n_from (st : M) (rl cl : Z) (n : nat) :
  forall c, 0 <= c -> c + Z.of_nat n <= matrixData.invalid_index ->
    matrixData.next_n n (matrixData.mkObject st rl cl c)
    = (map (fun k => matrixData.element (matrixData.mkObject st rl cl 0) (c + Z.of_nat k))
           (seq 0 n),
       matrixData.mkObject st rl cl (c + Z.of_nat n)).
Proof.
  induction n as [|n IH]; intros c Hc Hle.
  - simpl. now rewrite Z.add_0_r.
  - cbn [matrixData.next_n matrixData.next matrixData.cur matrixData.store
           matrixData.rowLim matrixData.colLim].
    rewrite index_succ_small by lia.
    rewrite (IH (c + 1)) by lia.
    cbn [seq map]. rewrite Z.add_0_r. f_equal.
    + f_equal. rewrite <- seq_shift, map_map. apply map_ext. intros k.
      f_equal. lia.
    + f_equal. lia.
Qed.

(** X20: the retrieval protocol hands out the stored triples in order.
    After [start ()], [n] calls of [next ()] (for [n] up to [size ()])
    return the first [n] triples by element number, leave the cursor at
    [n] and the store as it was, and [moreData ()] then says whether [n] is
    still below [size ()]. *)
Theorem next_enumerates_elements (a : matrixData.object M) (n : nat)
    (Hsize : matrixData.size (matrixData.store a) <= matrixData.invalid_index)
    (Hn : Z.of_nat n <= matrixData.size (matrixData.store a)) :
  fst (matrixData.next_n n (matrixData.start a)) = firstn n (matrixData.elements a)
  /\ matrixData.cur (snd (matrixData.next_n n (matrixData.start a))) = Z.of_nat n
  /\ matrixData.store (snd (matrixData.next_n n (matrixData.start a))) = matrixData.store a
  /\ matrixData.moreData (snd (matrixData.next_n n (matrixData.start a)))
     = (Z.of_nat n <? matrixData.size (matrixData.store a)).
Proof.
  unfold matrixData.start. rewrite next_n_from by lia.
  cbn [fst snd matrixData.cur matrixData.store matrixData.moreData].
  split; [|repeat split].
  unfold matrixData.elements. rewrite firstn_map, firstn_seq_le by lia.
  apply map_ext. intros k. reflexivity.
Qed.

End MatrixFacts.

Lemma next_enumerates_elements_witness :
  fst (matrixData.next_n (I := matrixData.entry_list_instantiation Z 0) 2
         (matrixData.start
            (matrixData.construct_default
               [matrixData.mkElement 0 1 5; matrixData.mkElement 2 0 7;
                matrixData.mkElement 2 2 9])))
  = [matrixData.mkElement 0 1 5; matrixData.mkElement 2 0 7].
Proof.
  assert (Hsize : 3 <= matrixData.invalid_index) by (vm_compute; discriminate).
  assert (Hn : Z.of_nat 2 <= 3) by (simpl; lia).
  exact (proj1 (next_enumerates_elements
                  (I := matrixData.entry_list_instantiation Z 0)
                  (matrixData.construct_default
                     [matrixData.mkElement 0 1 5; matrixData.mkElement 2 0 7;
                      matrixData.mkElement 2 2 9]) 2 Hsize Hn)).
Defined.

Lemma assignCheck_respects_limits_witness :
  matrixData.assignCheck (I := matrixData.entry_list_instantiation Z 0)
    (matrixData.construct [] 3 3) matrixData.invalid_index 1 5
  = matrixData.construct [] 3 3.
Proof.
  assert (H3 : matrixData.index_range 3)
    by (unfold matrixData.index_range; vm_compute; split; discriminate).
  assert (H1 : matrixData.index_range 1)
    by (unfold matrixData.index_range; vm_compute; split; discriminate).
  assert (Hi : matrixData.index_range matrixData.invalid_index)
    by (unfold matrixData.index_range; vm_compute; split; discriminate).
  exact (proj1 (proj1 (proj2 (assignCheck_respects_limits
                  (I := matrixData.entry_list_instantiation Z 0)
                  (matrixData.construct [] 3 3)
                  matrixData.invalid_index 1 5 H3 H3 Hi H1)) eq_refl)).
Defined.

Section BulkFacts.
Context {X M M2 : Type}
        {I : matrixData.Instantiation X M} {I2 : matrixData.Instantiation X M2}.

Lemma fold_assign_map (f : matrixData.matrixElement X -> matrixData.matrixElement X)
    (l : list (matrixData.matrixElement X)) :
  forall a : matrixData.object M,
    fold_left (fun acc e => matrixData.assign_element acc (f e)) l a
    = fold_left matrixData.assign_element (map f l) a.
Proof.
  induction l as [|e l IH]; intros a; [reflexivity|]. simpl. apply IH.
Qed.

Lemma fold_assign_keeps_base (l : list (matrixData.matrixElement X)) :
  forall a : matrixData.object M,
    matrixData.rowLim (fold_left matrixData.assign_element l a) = matrixData.rowLim a
    /\ matrixData.colLim (fold_left matrixData.assign_element l a) = matrixData.colLim a
    /\ matrixData.cur (fold_left matrixData.assign_element l a) = matrixData.cur a.
Proof.
  induction l as [|e l IH]; intros a; [repeat split|].
  simpl. destruct (IH (matrixData.assign_element a e)) as (H1 & H2 & H3).
  rewrite H1, H2, H3. repeat split.
Qed.

(** the loop shared by the two [merge]s, after [n] rounds *)
Lemma merge_rounds (f : X -> X) (a : matrixData.object M) (st2 : M2) (rl2 cl2 : Z) (n : nat) :
  Z.of_nat n <= matrixData.invalid_index ->
  fold_left
    (fun (acc : matrixData.object M * matrixData.object M2) (nn : nat) =>
       (fun (_ : Z) (st : matrixData.object M * matrixData.object M2) =>
          let '(this, other) := st in
          let '(tp, other1) := matrixData.next other in
          (matrixData.assign_entry this (matrixData.row tp) (matrixData.col tp)
             (f (matrixData.data tp)), other1)) (Z.of_nat nn) acc)
    (seq 0 n) (a, matrixData.mkObject st2 rl2 cl2 0)
  = (fold_left matrixData.assign_element
       (map (fun k =>
               let e := matrixData.element (matrixData.mkObject st2 rl2 cl2 0) (Z.of_nat k) in
               matrixData.mkElement (matrixData.row e) (matrixData.col e)
                 (f (matrixData.data e)))
            (seq 0 n)) a,
     matrixData.mkObject st2 rl2 cl2 (Z.of_nat n)).
Proof.
  induction n as [|n IH]; intros Hle; [reflexivity|].
  rewrite seq_S, fold_left_app, IH by lia.
  rewrite map_app, fold_left_app. cbn [fold_left map Nat.add].
  cbn [matrixData.next matrixData.cur matrixData.store matrixData.rowLim matrixData.colLim].
  rewrite index_succ_small by lia.
  f_equal. f_equal. lia.
Qed.

(** X21: [merge] assigns every stored triple of its argument to the
    calling object, in the order of their element numbers and without
    consulting the calling object's limits, and [merge] with a scale does
    the same with each value multiplied by the scale.  The argument's store
    is untouched but its retrieval cursor is left at the end, so its
    [moreData ()] is false afterwards; the calling object's limits and
    cursor are unchanged. *)
Theorem merge_assigns_every_entry (a : matrixData.object M) (a2 : matrixData.object M2)
    (Hsize : 0 <= matrixData.size (matrixData.store a2) <= matrixData.invalid_index) :
  matrixData.merge a a2
  = (fold_left matrixData.assign_element (matrixData.elements a2) a,
     matrixData.mkObject (matrixData.store a2) (matrixData.rowLim a2) (matrixData.colLim a2)
       (matrixData.size (matrixData.store a2)))
  /\ (forall (times : X -> X -> X) (scale : X),
        matrixData.merge_scale times a a2 scale
        = (fold_left matrixData.assign_element
             (map (fun e => matrixData.mkElement (matrixData.row e) (matrixData.col e)
                              (times (matrixData.data e) scale))
                  (matrixData.elements a2)) a,
           matrixData.mkObject (matrixData.store a2) (matrixData.rowLim a2)
             (matrixData.colLim a2) (matrixData.size (matrixData.store a2))))
  /\ matrixData.moreData (snd (matrixData.merge a a2)) = false
  /\ (matrixData.rowLim (fst (matrixData.merge a a2)) = matrixData.rowLim a
      /\ matrixData.colLim (fst (matrixData.merge a a2)) = matrixData.colLim a
      /\ matrixData.cur (fst (matrixData.merge a a2)) = matrixData.cur a).
Proof.
  destruct a2 as [st2 rl2 cl2 c2]. cbn [matrixData.store matrixData.rowLim matrixData.colLim] in *.
  assert (Hn : Z.of_nat (Z.to_nat (matrixData.size st2)) <= matrixData.invalid_index)
    by (rewrite Z2Nat.id; lia).
  assert (Hmerge : forall f : X -> X,
            matrixData.for_index (matrixData.size st2)
              (fun (_ : Z) (st : matrixData.object M * matrixData.object M2) =>
                 let '(this, other) := st in
                 let '(tp, other1) := matrixData.next other in
                 (matrixData.assign_entry this (matrixData.row tp) (matrixData.col tp)
                    (f (matrixData.data tp)), other1))
              (a, matrixData.mkObject st2 rl2 cl2 0)
            = (fold_left matrixData.assign_element
                 (map (fun e => matrixData.mkElement (matrixData.row e) (matrixData.col e)
                                  (f (matrixData.data e)))
                      (matrixData.elements (matrixData.mkObject st2 rl2 cl2 c2))) a,
               matrixData.mkObject st2 rl2 cl2 (matrixData.size st2))).
  { intros f. unfold matrixData.for_index.
    rewrite (merge_rounds f a st2 rl2 cl2 _ Hn), Z2Nat.id by lia.
    unfold matrixData.elements. rewrite map_map. reflexivity. }
  assert (Hplain : matrixData.merge a (matrixData.mkObject st2 rl2 cl2 c2)
             = (fold_left matrixData.assign_element
                  (matrixData.elements (matrixData.mkObject st2 rl2 cl2 c2)) a,
                matrixData.mkObject st2 rl2 cl2 (matrixData.size st2))).
  { unfold matrixData.merge, matrixData.start.
    cbn [matrixData.store matrixData.rowLim matrixData.colLim].
    rewrite (Hmerge (fun x => x)). f_equal. f_equal.
    rewrite <- (map_id (matrixData.elements _)) at 2.
    apply map_ext. intros [r c d]. reflexivity. }
  split; [exact Hplain|]. split; [|split].
  - intros times scale. unfold matrixData.merge_scale, matrixData.start.
    cbn [matrixData.store matrixData.rowLim matrixData.colLim].
    apply (Hmerge (fun x => times x scale)).
  - rewrite Hplain. unfold matrixData.moreData. simpl. apply Z.ltb_irrefl.
  - rewrite Hplain. simpl. apply fold_assign_keeps_base.
Qed.

Lemma copy_rounds (a : matrixData.object M) (other : matrixData.object M2)
    (origRow newRow : Z) (n : nat) :
  fold_left
    (fun (acc : matrixData.object M) (nn : nat) =>
       (fun (k : Z) (this : matrixData.object M) =>
          if matrixData.rowIndex (matrixData.store other) k =? origRow
          then matrixData.assign_entry this newRow
                 (matrixData.colIndex (matrixData.store other) k)
                 (matrixData.val (matrixData.store other) k)
          else this) (Z.of_nat nn) acc)
    (seq 0 n) a
  = fold_left matrixData.assign_element
      (map (fun e => matrixData.mkElement newRow (matrixData.col e) (matrixData.data e))
           (filter (fun e => matrixData.row e =? origRow)
                   (map (fun k => matrixData.element other (Z.of_nat k)) (seq 0 n)))) a.
Proof.
  induction n as [|n IH]; [reflexivity|].
  rewrite seq_S, fold_left_app, IH.
  rewrite map_app, filter_app, map_app, fold_left_app.
  cbn [fold_left map filter Nat.add matrixData.element matrixData.row].
  destruct (matrixData.rowIndex (matrixData.store other) (Z.of_nat n) =? origRow);
    reflexivity.
Qed.

(** X22: [copyTranslateRow] assigns to the calling object exactly the
    stored triples of its argument whose row is [origRow], in the order of
    their element numbers, each with its row replaced by [newRow] and its
    column and value kept; when the argument has no triple in that row the
    calling object is unchanged.  The argument's cursor is reset to the
    start, not run to the end. *)
Theorem copyTranslateRow_copies_one_row (a : matrixData.object M)
    (a2 : matrixData.object M2) (origRow newRow : Z) :
  matrixData.copyTranslateRow a a2 origRow newRow
  = (fold_left matrixData.assign_element
       (map (fun e => matrixData.mkElement newRow (matrixData.col e) (matrixData.data e))
            (filter (fun e => matrixData.row e =? origRow) (matrixData.elements a2))) a,
     matrixData.start a2)
  /\ (Forall (fun e => matrixData.row e <> origRow) (matrixData.elements a2) ->
      fst (matrixData.copyTranslateRow a a2 origRow newRow) = a)
  /\ matrixData.cur (snd (matrixData.copyTranslateRow a a2 origRow newRow)) = 0.
Proof.
  assert (Heq : matrixData.copyTranslateRow a a2 origRow newRow
          = (fold_left matrixData.assign_element
               (map (fun e => matrixData.mkElement newRow (matrixData.col e) (matrixData.data e))
                    (filter (fun e => matrixData.row e =? origRow) (matrixData.elements a2))) a,
             matrixData.start a2)).
  { unfold matrixData.copyTranslateRow, matrixData.for_index. f_equal.
    rewrite copy_rounds. reflexivity. }
  split; [exact Heq|]. split.
  - intros Hnone. rewrite Heq. cbn [fst].
    assert (Hnil : forall l : list (matrixData.matrixElement X),
              Forall (fun e => matrixData.row e <> origRow) l ->
              filter (fun e => matrixData.row e =? origRow) l = []).
    { induction 1 as [|e l He _ IH]; [reflexivity|].
      simpl. destruct (Z.eqb_spec (matrixData.row e) origRow); [contradiction | exact IH]. }
    rewrite (Hnil _ Hnone). reflexivity.
  - rewrite Heq. reflexivity.
Qed.

End BulkFacts.

Lemma merge_assigns_every_entry_witness :
  fst (matrixData.merge
         (I := matrixData.entry_list_instantiation Z 0)
         (I2 := matrixData.entry_list_instantiation Z 0)
         (matrixData.construct [matrixData.mkElement 9 9 1] 2 2)
         (matrixData.construct_default
            [matrixData.mkElement 0 1 5; matrixData.mkElement 7 0 7]))
  = matrixData.construct
      [matrixData.mkElement 9 9 1; matrixData.mkElement 0 1 5; matrixData.mkElement 7 0 7]
      2 2.
Proof.
  assert (Hsize : 0 <= 2 <= matrixData.invalid_index)
    by (vm_compute; split; discriminate).
  rewrite (proj1 (merge_assigns_every_entry
                    (I := matrixData.entry_list_instantiation Z 0)
                    (I2 := matrixData.entry_list_instantiation Z 0)
                    (matrixData.construct [matrixData.mkElement 9 9 1] 2 2)
                    (matrixData.construct_default
                       [matrixData.mkElement 0 1 5; matrixData.mkElement 7 0 7])
                    Hsize)).
  reflexivity.
Defined.

Lemma copyTranslateRow_copies_one_row_witness :
  fst (matrixData.copyTranslateRow
         (I := matrixData.entry_list_instantiation Z 0)
         (I2 := matrixData.entry_list_instantiation Z 0)
         (matrixData.construct_default [matrixData.mkElement 9 9 1])
         (matrixData.construct_default
            [matrixData.mkElement 0 1 5; matrixData.mkElement 7 0 7]) 3 4)
  = matrixData.construct_default [matrixData.mkElement 9 9 1].
Proof.
  apply (proj1 (proj2 (copyTranslateRow_copies_one_row
                         (I := matrixData.entry_list_instantiation Z 0)
                         (I2 := matrixData.entry_list_instantiation Z 0)
                         (matrixData.construct_default [matrixData.mkElement 9 9 1])
                         (matrixData.construct_default
                            [matrixData.mkElement 0 1 5; matrixData.mkElement 7 0 7]) 3 4))).
  repeat constructor; discriminate.
Defined.

Section IteratorFacts.
Context {X M : Type} {I : matrixData.Instantiation X M}.

Lemma iterator_incr_at (a : matrixData.object M) (first : Z) :
  matrixData.iterator_incr (matrixData.iterator_at a first)
  = Some (matrixData.iterator_at a (matrixData.index_succ first)).
Proof. reflexivity. Qed.

Lemma iterator_advance_at (a : matrixData.object M) (n : nat) :
  forall first, 0 <= first -> first + Z.of_nat n <= matrixData.invalid_index ->
    matrixData.iterator_advance n (matrixData.iterator_at a first)
    = Some (matrixData.iterator_at a (first + Z.of_nat n)).
Proof.
  induction n as [|n IH]; intros first Hf Hle.
  - simpl. now rewrite Z.add_0_r.
  - cbn [matrixData.iterator_advance]. rewrite iterator_incr_at. cbn [bind].
    rewrite index_succ_small by lia.
    rewrite IH by lia. do 2 f_equal. lia.
Qed.

(** X23: the iterators walk the stored triples in order.  Incrementing
    [begin ()] [n] times (for [n] up to [size ()]) gives the iterator at
    element number [n]; it dereferences to the [n]-th triple, the same one
    the retrieval protocol hands out [n]-th, and it differs from [end ()]
    exactly while [n] is below [size ()], so a walk from [begin ()] to
    [end ()] visits every stored triple once.  The post-increment hands
    back the iterator as it was; an iterator that was moved from is null,
    and each use of it is undefined. *)
Theorem iterator_walks_elements (a : matrixData.object M) (n : nat)
    (Hsize : matrixData.size (matrixData.store a) <= matrixData.invalid_index)
    (Hn : Z.of_nat n <= matrixData.size (matrixData.store a)) :
  matrixData.iterator_advance n (matrixData.begin_ a)
  = Some (matrixData.iterator_at a (Z.of_nat n))
  /\ matrixData.iterator_deref (matrixData.iterator_at a (Z.of_nat n))
     = Some (matrixData.element a (Z.of_nat n))
  /\ (Z.of_nat n < matrixData.size (matrixData.store a) ->
      nth_error (matrixData.elements a) n = Some (matrixData.element a (Z.of_nat n)))
  /\ matrixData.iterator_ne (matrixData.iterator_at a (Z.of_nat n)) (matrixData.end_ a)
     = Some (Z.of_nat n <? matrixData.size (matrixData.store a))
  /\ (Z.of_nat n < matrixData.size (matrixData.store a) ->
      matrixData.iterator_post_incr (matrixData.iterator_at a (Z.of_nat n))
      = Some (matrixData.iterator_at a (Z.of_nat n),
              matrixData.iterator_at a (Z.of_nat (S n))))
  /\ (forall it : matrixData.matrixIterator (M := M),
        fst (matrixData.iterator_move it) = it
        /\ matrixData.iterator_deref (snd (matrixData.iterator_move it)) = None
        /\ matrixData.iterator_incr (snd (matrixData.iterator_move it)) = None
        /\ matrixData.iterator_eq (snd (matrixData.iterator_move it)) (matrixData.end_ a) = None).
Proof.
  split; [|split; [|split; [|split; [|split]]]].
  - unfold matrixData.begin_. rewrite iterator_advance_at by lia. reflexivity.
  - reflexivity.
  - intros Hlt. unfold matrixData.elements.
    rewrite nth_error_map, nth_error_seq.
    destruct (Nat.ltb_spec n (Z.to_nat (matrixData.size (matrixData.store a)))); [|lia].
    reflexivity.
  - unfold matrixData.iterator_ne, matrixData.end_, matrixData.iterator_at, matrixData.isEqual.
    simpl. f_equal.
    destruct (Z.eqb_spec (Z.of_nat n) (matrixData.size (matrixData.store a))),
      (Z.ltb_spec (Z.of_nat n) (matrixData.size (matrixData.store a))); simpl; try reflexivity; lia.
  - intros Hlt. rewrite Nat2Z.inj_succ.
    unfold matrixData.iterator_post_incr, matrixData.iterator_copy,
      matrixData.iterator_incr, matrixData.iterator_at, matrixData.clone, matrixData.increment.
    cbn [bind matrixData.iteratorActual matrixData.currentElement matrixData.mD].
    rewrite index_succ_small by lia. reflexivity.
  - intros [it]. repeat split.
Qed.

End IteratorFacts.

Lemma iterator_walks_elements_witness :
  matrixData.iterator_advance 2
    (matrixData.begin_
       (matrixData.construct_default
          [matrixData.mkElement 0 1 5; matrixData.mkElement 2 0 7;
           matrixData.mkElement 2 2 9]))
  = Some (matrixData.iterator_at
            (matrixData.construct_default
               [matrixData.mkElement 0 1 5; matrixData.mkElement 2 0 7;
                matrixData.mkElement 2 2 9]) 2).
Proof.
  assert (Hsize : 3 <= matrixData.invalid_index) by (vm_compute; discriminate).
  assert (Hn : Z.of_nat 2 <= 3) by (simpl; lia).
  exact (proj1 (iterator_walks_elements
                  (I := matrixData.entry_list_instantiation Z 0)
                  (matrixData.construct_default
                     [matrixData.mkElement 0 1 5; matrixData.mkElement 2 0 7;
                      matrixData.mkElement 2 2 9]) 2 Hsize Hn)).
Defined.
